(** * astrbot_plugin_maa: the task-dispatch core of [main.py]

    A shallow embedding of the [MAAPlugin] class: the binding registry
    ([bindings], [device_to_sender]), the per-device task queues with their
    executed-id sets, the two HTTP handlers the device polls
    ([_handle_get_task], [_handle_report_status]), the notification relay
    ([_send_screenshot], [_delete_temp_file]) and the operator commands that
    mutate the registry and the queues.

    Conventions of the embedding.
    - Python [dict]s keyed by [str] are [gmap string _]; the executed-id
      [set] is a [gset string]; a queue is a [list task] in queue order.
    - Everything the handlers obtain from outside the object is an explicit
      argument: the clock reading of [time.time()], the tokens returned by
      [uuid.uuid4()], and the way each I/O action ends (it completes or it
      raises).
    - A handler evaluates to the new plugin state paired with a computation
      in the monad [M]: the list of effects it performed, in program order,
      and either its return value or the exception that left it.
    - A Python [str] is a [string] whose elements stand for its characters,
      so [len] is [String.length]; the literals of the source are kept.
    - A request body either does not parse, or parses to a JSON value that
      is not an object, or is an object; the members of an object are
      strings, as the protocol types them.
    - [_save_data] only writes the snapshot file and swallows its own
      exceptions, so it appears as the effect [SaveData].
    - [maa_status] computes on clock readings in whole seconds.
    - [str.strip] and [str.lower] of the Python library are arguments of
      the functions that call them. *)

From stdpp Require Import gmap strings list fin_maps.
From Stdlib Require Import ZArith.

Local Open Scope string_scope.
Local Open Scope list_scope.

(** ** Data model *)

(** A value of [self.bindings]:
    [{"device_id": ..., "user_id": ..., "umo": ...}]. *)
Record binding := Binding {
  b_device_id : string;
  b_user_id : string;
  b_umo : string;
}.

(** A queued task: [{"id": ..., "type": ...}] with an optional ["params"]. *)
Record task := Task {
  t_id : string;
  t_type : string;
  t_params : option string;
}.

#[global] Instance binding_eq_dec : EqDecision binding.
Proof. solve_decision. Defined.

#[global] Instance task_eq_dec : EqDecision task.
Proof. solve_decision. Defined.

(** The mutable attributes of a [MAAPlugin] instance. *)
Record MAAPlugin := Plugin {
  auto_screenshot : bool;
  bindings : gmap string binding;
  device_to_sender : gmap string string;
  task_queues : gmap string (list task);
  executed_tasks : gmap string (gset string);
  device_last_seen : gmap string Z;
}.

(** [__init__] with no snapshot file on disk: every table starts empty. *)
Definition init (auto : bool) : MAAPlugin :=
  Plugin auto ∅ ∅ ∅ ∅ ∅.

(** Python truthiness of a [str]: only the empty string is falsy. *)
Definition truthy (s : string) : bool := bool_decide (s ≠ "").

(** ** Effects and the handler monad *)

(** The incoming chat event, as far as the commands read it. *)
Record AstrMessageEvent := Event {
  get_sender_id : string;
  unified_msg_origin : string;
}.

(** [MessageChain().message(text)] with an optional [.file_image(path)]. *)
Record MessageChain := Chain {
  chain_text : string;
  chain_image : option string;
}.

(** What a command yields to the operator; the text of the source is quoted
    at each constructor. *)
Inductive reply :=
  | AlreadyBound (old_device : string) (* "你已绑定设备: ... 请先使用 /maa unbind" *)
  | DeviceTaken                        (* "该设备已被其他用户绑定" *)
  | BindOk (device_id sender_id : string) (* "绑定成功！" *)
  | NotBound                           (* "你尚未绑定任何设备" *)
  | UnbindOk (old_device : string)     (* "已解绑设备: ..." *)
  | BindFirst                          (* "请先绑定设备: /maa bind <设备ID>" *)
  | NoTasksGiven                       (* "请指定要执行的任务" *)
  | UnknownTask (name : string)        (* "未知任务: ..." *)
  | TasksAdded (names_types : list (string * string)) (* "已添加 n 个任务" *)
  | ScreenshotQueued                   (* "截图任务已添加" *)
  | StopQueued                         (* "停止任务指令已发送" *)
  | HeartbeatQueued.                   (* "心跳检测已发送" *)

Inductive log_level := Debug | Error.

(** How an I/O action ended: [None] when it completed, [Some e] when it
    raised an exception whose text is [e]. *)
Definition io_result := option string.

Inductive effect :=
  | Log (level : log_level) (msg : string)
  | Mkdir (dir : string) (r : io_result)
  | WriteFile (path : string) (data : string) (r : io_result)
  | SendMessage (target : string) (chain : MessageChain) (r : io_result)
  | CreateTask (file_path : string) (delay : Z)
      (* asyncio.create_task(self._delete_temp_file(file_path)) *)
  | SaveData (snapshot : gmap string binding)
  | Yield (r : reply).

(** A computation: the effects performed so far, then a value or the
    exception that stopped it. Effects are listed in program order, so
    every effect of a completed computation happened before its value was
    returned. *)
Definition M (A : Type) : Type := (list effect * (string + A))%type.

Definition ret {A} (a : A) : M A := ([], inr a).
Definition raise {A} (e : string) : M A := ([], inl e).
Definition emit (f : effect) : M unit := ([f], inr tt).

Definition bind {A B} (m : M A) (k : A → M B) : M B :=
  match m with
  | (fs, inl e) => (fs, inl e)
  | (fs, inr a) => let '(gs, r) := k a in (fs ++ gs, r)
  end.

(** An awaited I/O action: it is recorded with its result, and a raising
    one stops the computation. *)
Definition perform (f : io_result → effect) (r : io_result) : M unit :=
  match r with
  | None => ([f None], inr tt)
  | Some e => ([f (Some e)], inl e)
  end.

(** [try: m except Exception as e: h e] *)
Definition try_except {A} (m : M A) (h : string → M A) : M A :=
  match m with
  | (fs, inl e) => let '(gs, r) := h e in (fs ++ gs, r)
  | (fs, inr a) => (fs, inr a)
  end.

Notation "x ←ᴹ m ; k" := (bind m (λ x, k))
  (at level 20, m at level 50, k at level 200, right associativity,
   format "x  ←ᴹ  m ;  '/' k").
Notation "m ;;ᴹ k" := (bind m (λ _, k))
  (at level 100, k at level 200, right associativity).

Definition effects {A} (m : M A) : list effect := fst m.
Definition result {A} (m : M A) : string + A := snd m.

(** ** HTTP surface *)

Inductive body := Tasks (ts : list task) | NoBody.

Record response := Response {
  status : nat;
  resp_body : body;
}.

(** What [json.loads] can return besides a [dict], by its Python type. *)
Inductive non_object := JNull | JBool | JInt | JFloat | JString | JArray.

Definition type_name (value : non_object) : string :=
  match value with
  | JNull => "NoneType"
  | JBool => "bool"
  | JInt => "int"
  | JFloat => "float"
  | JString => "str"
  | JArray => "list"
  end.

(** The [AttributeError] of [data.get] on a value that has no [get]. *)
Definition attribute_error (value : non_object) : string :=
  "'" +:+ type_name value +:+ "' object has no attribute 'get'".

(** A request body at [await request.json()]: parsing raised, or it gave a
    value that is not an object, or it gave the members of an object. *)
Inductive request :=
  | Unparsable
  | NotObject (value : non_object)
  | Object (data : gmap string string).

(** [data.get(key, "")] *)
Definition get (data : gmap string string) (key : string) : string :=
  default "" (data !! key).

(** [[t for t in tasks if t["id"] not in executed]] *)
Definition pending (tasks : list task) (executed : gset string) : list task :=
  filter (λ t, t_id t ∉ executed) tasks.

(** The line feed of the f-strings. *)
Definition NL : string := String (Ascii.ascii_of_nat 10) "".

(** [_handle_get_task], lines 136-167. [now] is [time.time()]. *)
Definition _handle_get_task (self : MAAPlugin) (req : request) (now : Z)
  : MAAPlugin * M response :=
  match req with
  | Unparsable => (self, ret (Response 400 (Tasks [])))
  | NotObject value => (self, raise (attribute_error value))
  | Object data =>
    let device_id := get data "device" in
    let user_id := get data "user" in
    if negb (truthy device_id) then (self, ret (Response 400 (Tasks [])))
    else
      let self' :=
        Plugin (auto_screenshot self) (bindings self) (device_to_sender self)
               (task_queues self) (executed_tasks self)
               (<[device_id := now]> (device_last_seen self)) in
      let sender_id := device_to_sender self' !! device_id in
      if negb (from_option truthy false sender_id) then
        (self',
         emit (Log Debug ("未绑定设备请求: device=" +:+ device_id
                          +:+ ", user=" +:+ user_id)) ;;ᴹ
         ret (Response 200 (Tasks [])))
      else
        let tasks := default [] (task_queues self' !! device_id) in
        let executed := default ∅ (executed_tasks self' !! device_id) in
        (self', ret (Response 200 (Tasks (pending tasks executed))))
  end.

(** ** Notification relay *)

(** What the environment answers during one [reportStatus] request. *)
Record report_io := ReportIO {
  io_b64decode : string + string; (* base64.b64decode: [inl e] raises e *)
  io_mkdir : io_result;           (* temp_dir.mkdir(exist_ok=True) *)
  io_uuid_hex : string;           (* uuid.uuid4().hex[:8] *)
  io_write : io_result;           (* open(temp_file, "wb") and f.write *)
  io_send : io_result;            (* the first context.send_message *)
  io_send_fallback : io_result;   (* the one of the except branch *)
}.

Definition data_dir : string := "data/astrbot_plugin_maa".

(** The default of the [delay] parameter of [_delete_temp_file]. *)
Definition default_delay : Z := 30.

(** [self.data_dir / "temp"] *)
Definition temp_dir : string := data_dir +:+ "/temp".

(** [temp_dir / f"screenshot_{uuid.uuid4().hex[:8]}.png"] *)
Definition temp_file (io : report_io) : string :=
  temp_dir +:+ "/screenshot_" +:+ io_uuid_hex io +:+ ".png".

(** [_send_screenshot], lines 217-235. Every step is awaited in turn; the
    deferred deletion is created by the last statement. *)
Definition _send_screenshot (io : report_io) (umo base64_data message : string)
  : M unit :=
  image_data ←ᴹ match io_b64decode io with
                | inl e => raise e
                | inr bytes => ret bytes
                end;
  perform (Mkdir temp_dir) (io_mkdir io) ;;ᴹ
  perform (WriteFile (temp_file io) image_data) (io_write io) ;;ᴹ
  let chain := Chain message (Some (temp_file io)) in
  perform (SendMessage umo chain) (io_send io) ;;ᴹ
  emit (CreateTask (temp_file io) default_delay).

(** [_delete_temp_file], lines 237-244, after its [asyncio.sleep(delay)]:
    [fs] is the set of paths that exist, [unlink_r] how [unlink] ends. *)
Definition _delete_temp_file (fs : gset string) (file_path : string)
    (unlink_r : io_result) : gset string * M unit :=
  if decide (file_path ∈ fs) then
    match unlink_r with
    | None => (fs ∖ {[file_path]}, ret tt)
    | Some e => (fs, emit (Log Debug ("删除临时文件失败: " +:+ e)))
    end
  else (fs, ret tt).

(** The test of line 204: [payload and len(payload) > 100]. *)
Definition is_screenshot (payload : string) : bool :=
  truthy payload && bool_decide (100 < String.length payload).

(** [f"✅ MAA 任务完成\n状态: {status}"] *)
Definition completion_message (status : string) : string :=
  "✅ MAA 任务完成" +:+ NL +:+ "状态: " +:+ status.

(** The except branch of lines 207-210. *)
Definition screenshot_failed (io : report_io) (umo message e : string)
  : M unit :=
  emit (Log Error ("发送截图失败: " +:+ e)) ;;ᴹ
  let chain :=
    Chain (message +:+ NL +:+ "(截图发送失败: " +:+ e +:+ ")") None in
  perform (SendMessage umo chain) (io_send_fallback io).

(** Lines 195-213: look the operator up and send the notification. *)
Definition notify (self : MAAPlugin) (io : report_io)
    (device_id status payload : string) : M unit :=
  match device_to_sender self !! device_id with
  | Some sender_id =>
    if truthy sender_id then
      match bindings self !! sender_id with
      | Some binding =>
        let umo := b_umo binding in
        if truthy umo then
          let message := completion_message status in
          if is_screenshot payload then
            try_except (_send_screenshot io umo payload message)
                       (screenshot_failed io umo message)
          else
            perform (SendMessage umo (Chain message None)) (io_send io)
        else ret tt
      | None => ret tt
      end
    else ret tt
  | None => ret tt
  end.

(** Lines 184-193: mark the task executed and drop it from the queue. *)
Definition acknowledge (self : MAAPlugin) (device_id task_id : string)
  : MAAPlugin :=
  let executed0 :=
    match executed_tasks self !! device_id with
    | None => <[device_id := ∅]> (executed_tasks self)
    | Some _ => executed_tasks self
    end in
  let executed1 := alter (λ s, s ∪ {[task_id]}) device_id executed0 in
  let queues1 :=
    match task_queues self !! device_id with
    | Some q =>
      <[device_id := filter (λ t, t_id t ≠ task_id) q]> (task_queues self)
    | None => task_queues self
    end in
  Plugin (auto_screenshot self) (bindings self) (device_to_sender self)
         queues1 executed1 (device_last_seen self).

(** [_handle_report_status], lines 169-215. *)
Definition _handle_report_status (self : MAAPlugin) (req : request)
    (io : report_io) : MAAPlugin * M response :=
  match req with
  | Unparsable => (self, ret (Response 400 NoBody))
  | NotObject value => (self, raise (attribute_error value))
  | Object data =>
    let device_id := get data "device" in
    let task_id := get data "task" in
    let status := get data "status" in
    let payload := get data "payload" in
    if negb (truthy device_id) || negb (truthy task_id) then
      (self, ret (Response 400 NoBody))
    else
      let self' := acknowledge self device_id task_id in
      (self',
       notify self' io device_id status payload ;;ᴹ
       ret (Response 200 NoBody))
  end.

(** ** Task queue *)

Definition exempt (task_type : string) : bool :=
  bool_decide (task_type ∈ ["CaptureImage"; "CaptureImageNow"; "HeartBeat"]).

Definition set_queue (self : MAAPlugin) (device_id : string) (q : list task)
  : MAAPlugin :=
  Plugin (auto_screenshot self) (bindings self) (device_to_sender self)
         (<[device_id := q]> (task_queues self))
         (executed_tasks self) (device_last_seen self).

(** [_add_task], lines 246-263. [uuid1] and [uuid2] are what the two calls
    of [uuid.uuid4()] return; the second is drawn only when a screenshot
    task is appended. The result is the new state and the returned id. *)
Definition _add_task (self : MAAPlugin) (device_id task_type params : string)
    (uuid1 uuid2 : string) : MAAPlugin * string :=
  let task_id := uuid1 in
  let task :=
    Task task_id task_type (if truthy params then Some params else None) in
  let q0 := default [] (task_queues self !! device_id) in
  let q1 := q0 ++ [task] in
  let q2 :=
    if auto_screenshot self && negb (exempt task_type) then
      q1 ++ [Task uuid2 "CaptureImage" None]
    else q1 in
  (set_queue self device_id q2, task_id).

(** The three control commands share lines 455-457: create the queue when
    it is missing, then [insert(0, task)]. *)
Definition insert_head (self : MAAPlugin) (device_id : string) (t : task)
  : MAAPlugin :=
  set_queue self device_id (t :: default [] (task_queues self !! device_id)).

(** What [_add_task] appends. *)
Definition appended (self : MAAPlugin) (task_type params uuid1 uuid2 : string)
  : list task :=
  Task uuid1 task_type (if truthy params then Some params else None)
  :: (if auto_screenshot self && negb (exempt task_type)
      then [Task uuid2 "CaptureImage" None] else []).

(** ** Operator commands *)

(** [maa_bind], lines 273-311. *)
Definition maa_bind (self : MAAPlugin) (event : AstrMessageEvent)
    (device_id : string) : MAAPlugin * M unit :=
  let sender_id := get_sender_id event in
  match bindings self !! sender_id with
  | Some old => (self, emit (Yield (AlreadyBound (b_device_id old))))
  | None =>
    match device_to_sender self !! device_id with
    | Some _ => (self, emit (Yield DeviceTaken))
    | None =>
      let self' :=
        Plugin (auto_screenshot self)
               (<[sender_id :=
                    Binding device_id sender_id (unified_msg_origin event)]>
                  (bindings self))
               (<[device_id := sender_id]> (device_to_sender self))
               (task_queues self) (executed_tasks self)
               (device_last_seen self) in
      (self',
       emit (SaveData (bindings self')) ;;ᴹ
       emit (Yield (BindOk device_id sender_id)))
    end
  end.

(** [maa_unbind], lines 314-334. [del d[k]] raises [KeyError] when [k] is
    missing; the first [del] is the only one that is not guarded by the
    membership test before it. *)
Definition maa_unbind (self : MAAPlugin) (event : AstrMessageEvent)
  : MAAPlugin * M unit :=
  let sender_id := get_sender_id event in
  match bindings self !! sender_id with
  | None => (self, emit (Yield NotBound))
  | Some old =>
    let old_device := b_device_id old in
    match device_to_sender self !! old_device with
    | None => (self, raise ("KeyError: " +:+ old_device))
    | Some _ =>
      let self' :=
        Plugin (auto_screenshot self)
               (delete sender_id (bindings self))
               (delete old_device (device_to_sender self))
               (delete old_device (task_queues self))
               (delete old_device (executed_tasks self))
               (device_last_seen self) in
      (self',
       emit (SaveData (bindings self')) ;;ᴹ
       emit (Yield (UnbindOk old_device)))
    end
  end.

(** One entry of [task_types] in [maa_start], with the tokens [uuid4]
    returns during its [_add_task] call. *)
Record start_item := StartItem {
  si_name : string;
  si_type : string;
  si_uuid1 : string;
  si_uuid2 : string;
}.

(** The outcome of lines 395-421 of [maa_start], which split the argument
    at commas and resolve each name in [TASK_ALIASES]. *)
Inductive start_request :=
  | NoNames
  | Unknown (name : string)
  | Resolved (items : list start_item).

(** The loop of lines 425-427: one [_add_task] call per resolved task, in
    order, with empty [params]. *)
Definition add_all (device_id : string) (self : MAAPlugin)
    (items : list start_item) : MAAPlugin :=
  foldl (λ s it, fst (_add_task s device_id (si_type it) ""
                                (si_uuid1 it) (si_uuid2 it)))
        self items.

(** [maa_start], lines 374-433, from the resolved task list on. *)
Definition maa_start (self : MAAPlugin) (event : AstrMessageEvent)
    (tasks : start_request) : MAAPlugin * M unit :=
  let sender_id := get_sender_id event in
  match bindings self !! sender_id with
  | None => (self, emit (Yield BindFirst))
  | Some b =>
    let device_id := b_device_id b in
    match tasks with
    | NoNames => (self, emit (Yield NoTasksGiven))
    | Unknown name => (self, emit (Yield (UnknownTask name)))
    | Resolved items =>
      let self' := add_all device_id self items in
      (self',
       emit (Yield (TasksAdded ((λ it, (si_name it, si_type it)) <$> items))))
    end
  end.

(** The body shared by [maa_screenshot], [maa_stop] and [maa_heartbeat]:
    a single task of the given type is put at the head of the queue. *)
Definition control_command (task_type : string) (done : reply)
    (self : MAAPlugin) (event : AstrMessageEvent) (uuid : string)
  : MAAPlugin * M unit :=
  let sender_id := get_sender_id event in
  match bindings self !! sender_id with
  | None => (self, emit (Yield BindFirst))
  | Some b =>
    let device_id := b_device_id b in
    let task_id := uuid in
    let task := Task task_id task_type None in
    (insert_head self device_id task, emit (Yield done))
  end.

(** [maa_screenshot], lines 442-459. *)
Definition maa_screenshot := control_command "CaptureImageNow" ScreenshotQueued.

(** [maa_stop], lines 462-478. *)
Definition maa_stop := control_command "StopTask" StopQueued.

(** [maa_heartbeat], lines 481-497. *)
Definition maa_heartbeat := control_command "HeartBeat" HeartbeatQueued.

(** ** The plugin as a transition system *)

(** Everything that can happen to a running plugin: an operator command or
    a device request, each with what the environment answers during it. *)
Inductive input :=
  | Bind (event : AstrMessageEvent) (device_id : string)
  | Unbind (event : AstrMessageEvent)
  | Start (event : AstrMessageEvent) (tasks : start_request)
  | Screenshot (event : AstrMessageEvent) (uuid : string)
  | Stop (event : AstrMessageEvent) (uuid : string)
  | Heartbeat (event : AstrMessageEvent) (uuid : string)
  | GetTask (req : request) (now : Z)
  | ReportStatus (req : request) (io : report_io).

Definition handle (self : MAAPlugin) (i : input) : MAAPlugin * (list effect) :=
  match i with
  | Bind ev d => let '(s, m) := maa_bind self ev d in (s, effects m)
  | Unbind ev => let '(s, m) := maa_unbind self ev in (s, effects m)
  | Start ev ts => let '(s, m) := maa_start self ev ts in (s, effects m)
  | Screenshot ev u => let '(s, m) := maa_screenshot self ev u in (s, effects m)
  | Stop ev u => let '(s, m) := maa_stop self ev u in (s, effects m)
  | Heartbeat ev u => let '(s, m) := maa_heartbeat self ev u in (s, effects m)
  | GetTask req now => let '(s, m) := _handle_get_task self req now in (s, effects m)
  | ReportStatus req io =>
    let '(s, m) := _handle_report_status self req io in (s, effects m)
  end.

Definition step (self : MAAPlugin) (i : input) : MAAPlugin := fst (handle self i).

(** The state after a sequence of inputs, oldest first. *)
Definition run (self : MAAPlugin) (inputs : list input) : MAAPlugin :=
  foldl step self inputs.

(** ** Observations used by the statements *)

(** [self.task_queues.get(device_id, [])] *)
Definition queue (self : MAAPlugin) (device_id : string) : list task :=
  default [] (task_queues self !! device_id).

(** [self.executed_tasks.get(device_id, set())] *)
Definition executed (self : MAAPlugin) (device_id : string) : gset string :=
  default ∅ (executed_tasks self !! device_id).

(** The body [{"device": device, "user": user}]. *)
Definition get_request (device user : string) : gmap string string :=
  <["device" := device]> {["user" := user]}.

(** The body of a [reportStatus] request with all four members. *)
Definition report_request (device task_id status payload : string)
  : gmap string string :=
  <["device" := device]> (<["task" := task_id]>
    (<["status" := status]> {["payload" := payload]})).

(** What a poll of [device_id] is answered in state [self]. *)
Definition poll (self : MAAPlugin) (device_id user : string) (now : Z)
  : string + response :=
  result (snd (_handle_get_task self (Object (get_request device_id user)) now)).

(** The tokens [uuid4] returns while an input is handled. *)
Definition uuids_of (i : input) : list string :=
  match i with
  | Start _ (Resolved items) =>
    items ≫= (λ it, [si_uuid1 it; si_uuid2 it])
  | Screenshot _ u | Stop _ u | Heartbeat _ u => [u]
  | _ => []
  end.

(** The registry is a bijection: each binding is mirrored by the inverse
    index and records the operator it is stored under, and each entry of
    the inverse index is mirrored by a binding. *)
Definition consistent (self : MAAPlugin) : Prop :=
  map_Forall (λ op b, device_to_sender self !! b_device_id b = Some op
                      ∧ b_user_id b = op)
             (bindings self)
  ∧ map_Forall (λ dev op, b_device_id <$> bindings self !! op = Some dev)
               (device_to_sender self).

#[global] Instance consistent_dec self : Decision (consistent self).
Proof. unfold consistent. apply _. Defined.

(** While its device stays bound, a queued task that is not acknowledged
    stays queued and unexecuted. *)
Definition held (dev op : string) (t : task) (self : MAAPlugin) : Prop :=
  consistent self
  ∧ device_to_sender self !! dev = Some op
  ∧ t ∈ queue self dev
  ∧ t_id t ∉ executed self dev.

(** A request the handlers answer with 400: the body did not parse, or a
    required member is missing or empty. *)
Definition malformed_get (req : request) : Prop :=
  match req with
  | Unparsable => True
  | NotObject _ => False
  | Object data => get data "device" = ""
  end.

Definition malformed_report (req : request) : Prop :=
  match req with
  | Unparsable => True
  | NotObject _ => False
  | Object data => get data "device" = "" ∨ get data "task" = ""
  end.

(** [is_unbind_of op i]: input [i] is the unbind command of operator [op]. *)
Definition is_unbind_of (op : string) (i : input) : bool :=
  match i with
  | Unbind ev => bool_decide (get_sender_id ev = op)
  | _ => false
  end.

(** [is_ack_of dev tid i]: input [i] is a well-formed [reportStatus]
    request of device [dev] for task id [tid]. *)
Definition is_ack_of (dev tid : string) (i : input) : bool :=
  match i with
  | ReportStatus (Object data) _ =>
    bool_decide (get data "device" = dev ∧ get data "task" = tid)
  | _ => false
  end.

(** The tasks carried by a response. *)
Definition tasks_of (r : response) : list task :=
  match resp_body r with
  | Tasks ts => ts
  | NoBody => []
  end.

(** How the last [send_message] among the effects ended, if there was one. *)
Fixpoint last_send (fs : list effect) : option io_result :=
  match fs with
  | [] => None
  | f :: fs' =>
    match last_send fs' with
    | Some r => Some r
    | None =>
      match f with
      | SendMessage _ _ r => Some r
      | _ => None
      end
    end
  end.

Definition is_create_task (f : effect) : bool :=
  match f with
  | CreateTask _ _ => true
  | _ => false
  end.

(** ** Example data *)

Definition U1 : AstrMessageEvent := Event "U1" "qq:private:U1".

(** Operator U1 has bound device D1 on a fresh plugin with the
    auto-screenshot option on. *)
Definition bound_plugin : MAAPlugin := step (init true) (Bind U1 "D1").

(** ... and has then started a Combat task. *)
Definition combat_plugin : MAAPlugin :=
  step bound_plugin
       (Start U1 (Resolved [StartItem "combat" "LinkStart-Combat" "id-1" "id-2"])).

(** Seventy-five bytes of image data and their base64 text, which is 100
    characters long; with a trailing blank, which the decoder skips, 101. *)
Definition image_bytes : string :=
  "PNG image data standing in for a screenshot, seventy-five bytes in all.    ".
Definition payload_100 : string :=
  "UE5HIGltYWdlIGRhdGEgc3RhbmRpbmcgaW4gZm9yIGEgc2NyZWVuc2hvdCwgc2V2ZW50eS1maXZlIGJ5dGVzIGluIGFsbC4gICAg".
Definition payload_101 : string := payload_100 +:+ " ".

(** Every I/O action of the request completes. *)
Definition io_ok : report_io :=
  ReportIO (inr image_bytes) None "0a1b2c3d" None None None.

(** The channel refuses the first send of the request. *)
Definition io_send_fails : report_io :=
  ReportIO (inr image_bytes) None "0a1b2c3d" None (Some "send failed") None.

(** The Combat task of [combat_plugin], the [reportStatus] bodies that
    acknowledge it and the screenshot task, and inputs around them. *)
Definition combat_task : task := Task "id-1" "LinkStart-Combat" None.

Definition combat_report : gmap string string :=
  report_request "D1" "id-1" "done" "".

Definition image_report : gmap string string :=
  report_request "D1" "id-2" "done" payload_101.

Definition inputs_before : list input :=
  [GetTask (Object (get_request "D1" "")) 3; Stop U1 "id-3";
   ReportStatus (Object (report_request "D1" "id-2" "done" "")) io_ok;
   Bind (Event "U2" "qq:private:U2") "D1"; Unbind (Event "U2" "")].

Definition inputs_after : list input :=
  [Unbind U1; Bind U1 "D1";
   Start U1 (Resolved [StartItem "combat" "LinkStart-Combat" "id-4" "id-5"])].

(** ** Persistence across restarts *)

(** What [_load_data] finds at [data_dir / "bindings.json"]: no file, a
    file that cannot be opened or parsed, or the items of the dictionary
    [json.load] returns, in the order of the file (their keys are distinct,
    as those of a dictionary are). *)
Inductive snapshot_file :=
  | NoFile
  | Unreadable (e : string)
  | Snapshot (items : list (string * binding)).

(** What [_load_data] writes to the log. *)
Inductive load_log :=
  | NothingLoaded
  | Loaded (n : nat)        (* "已加载 n 个设备绑定" *)
  | LoadFailed (e : string). (* "加载绑定数据失败: e" *)

(** Lines 101-102: [for sender_id, info in self.bindings.items():
    self.device_to_sender[info["device_id"]] = sender_id]. *)
Definition rebuild_index (index : gmap string string)
    (items : list (string * binding)) : gmap string string :=
  foldl (λ m it, <[b_device_id it.2 := it.1]> m) index items.

(** [_load_data], lines 93-105. *)
Definition _load_data (self : MAAPlugin) (file : snapshot_file)
  : MAAPlugin * load_log :=
  match file with
  | NoFile => (self, NothingLoaded)
  | Unreadable e => (self, LoadFailed e)
  | Snapshot items =>
    let loaded : gmap string binding := list_to_map items in
    (Plugin (auto_screenshot self) loaded
            (rebuild_index (device_to_sender self) items)
            (task_queues self) (executed_tasks self) (device_last_seen self),
     Loaded (size loaded))
  end.

(** [__init__], lines 61-91: empty tables, then [_load_data]. *)
Definition __init__ (auto : bool) (file : snapshot_file) : MAAPlugin :=
  fst (_load_data (init auto) file).

(** The snapshots handed to [_save_data] among the effects, oldest first. *)
Definition saved (fs : list effect) : list (gmap string binding) :=
  omap (λ f, match f with SaveData snapshot => Some snapshot | _ => None end) fs.

(** ** Device status *)

(** The four status lines of [maa_status]; the numbers are [int(elapsed)]
    and [int(elapsed // 60)]. *)
Inductive presence :=
  | NeverConnected            (* "从未连接" *)
  | Online                    (* "在线" *)
  | RecentlyActive (seconds : Z) (* "n秒前活跃" *)
  | Offline (minutes : Z).    (* "离线 (n分钟前)" *)

(** Lines 350-361, on clock readings in whole seconds. *)
Definition presence_at (last_seen now : Z) : presence :=
  if bool_decide (0 < last_seen)%Z then
    let elapsed := (now - last_seen)%Z in
    if bool_decide (elapsed < 10)%Z then Online
    else if bool_decide (elapsed < 60)%Z then RecentlyActive elapsed
    else Offline (elapsed `div` 60)%Z
  else NeverConnected.

(** What the status reply of lines 366-371 shows. *)
Record status_report := StatusReport {
  sr_device : string;     (* device_id[:16] *)
  sr_presence : presence;
  sr_pending : nat;       (* len(self.task_queues.get(device_id, [])) *)
}.

(** [maa_status], lines 337-371; [None] is the reply to an operator who has
    bound no device. The command changes nothing. *)
Definition maa_status (self : MAAPlugin) (event : AstrMessageEvent) (now : Z)
  : option status_report :=
  match bindings self !! get_sender_id event with
  | None => None
  | Some binding =>
    let device_id := b_device_id binding in
    let last_seen := default 0%Z (device_last_seen self !! device_id) in
    Some (StatusReport (String.substring 0 16 device_id)
                       (presence_at last_seen now)
                       (length (default [] (task_queues self !! device_id))))
  end.

(** ** Task names *)

(** [TASK_ALIASES], lines 23-48. *)
Definition TASK_ALIASES : gmap string string :=
  list_to_map
    [("base", "LinkStart-Base"); ("wakeup", "LinkStart-WakeUp");
     ("combat", "LinkStart-Combat"); ("recruiting", "LinkStart-Recruiting");
     ("mall", "LinkStart-Mall"); ("mission", "LinkStart-Mission");
     ("autoroguelike", "LinkStart-AutoRoguelike");
     ("reclamation", "LinkStart-Reclamation");
     ("基建换班", "LinkStart-Base"); ("基建", "LinkStart-Base");
     ("开始唤醒", "LinkStart-WakeUp"); ("刷理智", "LinkStart-Combat");
     ("自动公招", "LinkStart-Recruiting"); ("公招", "LinkStart-Recruiting");
     ("获取信用及购物", "LinkStart-Mall"); ("信用", "LinkStart-Mall");
     ("领取奖励", "LinkStart-Mission");
     ("自动肉鸽", "LinkStart-AutoRoguelike"); ("肉鸽", "LinkStart-AutoRoguelike");
     ("生息演算", "LinkStart-Reclamation");
     ("all", "LinkStart")].

Definition comma : Ascii.ascii := Ascii.ascii_of_nat 44.

(** [s.split(",")] *)
Fixpoint split_comma (s : string) : list string :=
  match s with
  | "" => [""]
  | String c s' =>
    if bool_decide (c = comma) then "" :: split_comma s'
    else match split_comma s' with
         | x :: xs => String c x :: xs
         | [] => [String c ""]
         end
  end.

(** Line 396: [[t.strip() for t in tasks.split(",") if t.strip()]].
    [strip] is [str.strip] of the Python library. *)
Definition task_names (strip : string → string) (tasks : string)
  : list string :=
  filter (λ t, truthy t = true) (strip <$> split_comma tasks).

(** Line 405: [TASK_ALIASES.get(name.lower()) or TASK_ALIASES.get(name)].
    [lower] is [str.lower] of the Python library. *)
Definition resolve (lower : string → string) (name : string) : option string :=
  match TASK_ALIASES !! lower name with
  | Some task_type =>
    if truthy task_type then Some task_type else TASK_ALIASES !! name
  | None => TASK_ALIASES !! name
  end.

(** The loop of lines 402-421: the pairs [(name, task_type)] in order, or
    the first name for which [not task_type] holds. *)
Fixpoint resolve_all (lower : string → string) (names : list string)
  : string + list (string * string) :=
  match names with
  | [] => inr []
  | name :: rest =>
    match resolve lower name with
    | Some task_type =>
      if truthy task_type then
        match resolve_all lower rest with
        | inl unknown => inl unknown
        | inr task_types => inr ((name, task_type) :: task_types)
        end
      else inl name
    | None => inl name
    end
  end.

(** Lines 395-421 as a whole. [uuids k] are the two tokens [uuid4] returns
    during the [_add_task] call of the entry at index [k]. *)
Definition parse_start (strip lower : string → string) (tasks : string)
    (uuids : nat → string * string) : start_request :=
  match task_names strip tasks with
  | [] => NoNames
  | names =>
    match resolve_all lower names with
    | inl unknown => Unknown unknown
    | inr task_types =>
      Resolved (imap (λ k nt, StartItem nt.1 nt.2 (uuids k).1 (uuids k).2)
                     task_types)
    end
  end.

(** [maa_start] on the text the operator typed. *)
Definition maa_start_command (strip lower : string → string)
    (self : MAAPlugin) (event : AstrMessageEvent) (tasks : string)
    (uuids : nat → string * string) : MAAPlugin * M unit :=
  maa_start self event (parse_start strip lower tasks uuids).

(** [maa_linkstart], lines 436-439. *)
Definition maa_linkstart (strip lower : string → string)
    (self : MAAPlugin) (event : AstrMessageEvent)
    (uuids : nat → string * string) : MAAPlugin * M unit :=
  maa_start_command strip lower self event "ALL" uuids.

(** [str.lower] and [str.strip] on the characters of ASCII, standing in for
    the library functions in the evaluated examples. *)
Definition ascii_lower_char (c : Ascii.ascii) : Ascii.ascii :=
  let n := Ascii.nat_of_ascii c in
  if bool_decide (65 ≤ n ≤ 90)%nat then Ascii.ascii_of_nat (n + 32) else c.

Fixpoint ascii_lower (s : string) : string :=
  match s with
  | "" => ""
  | String c s' => String (ascii_lower_char c) (ascii_lower s')
  end.

Definition is_blank (c : Ascii.ascii) : bool :=
  let n := Ascii.nat_of_ascii c in
  bool_decide (n = 32 ∨ 9 ≤ n ≤ 13 ∨ 28 ≤ n ≤ 31)%nat.

Fixpoint lstrip (s : string) : string :=
  match s with
  | "" => ""
  | String c s' => if is_blank c then lstrip s' else s
  end.

Definition ascii_strip (s : string) : string :=
  String.rev (lstrip (String.rev (lstrip s))).

(** ** Invariants of the queues *)

(** Every device that has a queue is bound. *)
Definition no_orphan_queue (self : MAAPlugin) : Prop :=
  ∀ dev, is_Some (task_queues self !! dev) →
         is_Some (device_to_sender self !! dev).

(** No queued task has been acknowledged already. *)
Definition none_executed (self : MAAPlugin) : Prop :=
  ∀ dev t, t ∈ queue self dev → t_id t ∉ executed self dev.

(** The handler an input names, applied to the input. *)
Definition command (self : MAAPlugin) (i : input) : MAAPlugin * M unit :=
  match i with
  | Bind ev d => maa_bind self ev d
  | Unbind ev => maa_unbind self ev
  | Start ev ts => maa_start self ev ts
  | Screenshot ev u => maa_screenshot self ev u
  | Stop ev u => maa_stop self ev u
  | Heartbeat ev u => maa_heartbeat self ev u
  | GetTask req now =>
    let '(s, m) := _handle_get_task self req now in (s, m ;;ᴹ ret tt)
  | ReportStatus req io =>
    let '(s, m) := _handle_report_status self req io in (s, m ;;ᴹ ret tt)
  end.

(** The operator who sent a command; a device request has none. *)
Definition sender_of (i : input) : option string :=
  match i with
  | Bind ev _ | Unbind ev | Start ev _
  | Screenshot ev _ | Stop ev _ | Heartbeat ev _ => Some (get_sender_id ev)
  | GetTask _ _ | ReportStatus _ _ => None
  end.

(** A token is unseen when no executed set holds it. *)
Definition unseen (self : MAAPlugin) (uuid : string) : Prop :=
  map_Forall (λ _ ids, uuid ∉ ids) (executed_tasks self).

(** Along the inputs, every token [uuid4] returns is unseen at the moment
    it is drawn. *)
Fixpoint fresh_run (self : MAAPlugin) (inputs : list input) : Prop :=
  match inputs with
  | [] => True
  | i :: rest =>
    Forall (unseen self) (uuids_of i) ∧ fresh_run (step self i) rest
  end.

#[global] Instance fresh_run_dec inputs : ∀ self, Decision (fresh_run self inputs).
Proof. induction inputs; intros self; simpl; apply _. Defined.

(** * Properties *)

(** Closed decidable statements are settled by evaluating their decision
    procedure. *)
Ltac by_evaluation := apply (bool_decide_unpack _); vm_compute; exact I.

(** ** The scenario of the specification, evaluated *)

(** After [bind] and [start Combat] the queue holds the Combat task and
    its screenshot, and a poll receives both. *)
Example scenario_start :
  queue combat_plugin "D1"
  = [Task "id-1" "LinkStart-Combat" None; Task "id-2" "CaptureImage" None]
  ∧ poll combat_plugin "D1" "U1" 1
    = inr (Response 200 (Tasks [Task "id-1" "LinkStart-Combat" None;
                                Task "id-2" "CaptureImage" None])).
Proof. by vm_compute. Qed.

(** Reporting the Combat task leaves the screenshot task and sends a text;
    reporting that one with an image empties the queue, sends the image
    and creates the deferred deletion. *)
Example scenario_reports :
  queue (step combat_plugin (ReportStatus (Object combat_report) io_ok)) "D1"
  = [Task "id-2" "CaptureImage" None]
  ∧ effects (snd (_handle_report_status combat_plugin (Object combat_report) io_ok))
    = [SendMessage "qq:private:U1" (Chain (completion_message "done") None) None]
  ∧ queue (run combat_plugin [ReportStatus (Object combat_report) io_ok;
                              ReportStatus (Object image_report) io_ok]) "D1"
    = []
  ∧ effects (snd (_handle_report_status
                    (step combat_plugin (ReportStatus (Object combat_report) io_ok))
                    (Object image_report) io_ok))
    = [Mkdir temp_dir None; WriteFile (temp_file io_ok) image_bytes None;
       SendMessage "qq:private:U1"
         (Chain (completion_message "done") (Some (temp_file io_ok))) None;
       CreateTask (temp_file io_ok) 30].
Proof. by vm_compute. Qed.

(** A control task put at the head is polled before what was queued. *)
Example scenario_priority :
  poll (step combat_plugin (Heartbeat U1 "id-3")) "D1" "U1" 2
  = inr (Response 200 (Tasks [Task "id-3" "HeartBeat" None;
                              Task "id-1" "LinkStart-Combat" None;
                              Task "id-2" "CaptureImage" None])).
Proof. by vm_compute. Qed.

(** A poll of a device nobody has bound is answered 200 with no task, and
    is recorded in the presence table. *)
Example scenario_unbound_probe :
  _handle_get_task (init true) (Object (get_request "D9" "someone")) 5
  = (Plugin true ∅ ∅ ∅ ∅ {["D9" := 5%Z]},
     ([Log Debug "未绑定设备请求: device=D9, user=someone"],
      inr (Response 200 (Tasks [])))).
Proof. by vm_compute. Qed.

(** ** The registry *)

Lemma init_consistent auto : consistent (init auto).
Proof. split; apply map_Forall_empty. Qed.

Lemma add_all_frame items d self :
  bindings (add_all d self items) = bindings self
  ∧ device_to_sender (add_all d self items) = device_to_sender self
  ∧ executed_tasks (add_all d self items) = executed_tasks self
  ∧ auto_screenshot (add_all d self items) = auto_screenshot self.
Proof.
  revert self. induction items as [|it items IH]; intros self; [done|].
  unfold add_all in *. cbn [foldl].
  destruct (IH (fst (_add_task self d (si_type it) "" (si_uuid1 it) (si_uuid2 it))))
    as (-> & -> & -> & ->).
  done.
Qed.

(** Commands other than bind and unbind, and both HTTP handlers, leave the
    two indices alone. *)
Lemma step_registry self i :
  (∀ ev d, i ≠ Bind ev d) → (∀ ev, i ≠ Unbind ev) →
  bindings (step self i) = bindings self
  ∧ device_to_sender (step self i) = device_to_sender self.
Proof.
  intros Hb Hu. destruct i as [ev d|ev|ev ts|ev u|ev u|ev u|req now|req io].
  - by destruct (Hb ev d).
  - by destruct (Hu ev).
  - unfold step, handle, maa_start.
    destruct (bindings self !! get_sender_id ev) as [b|]; [|done].
    destruct ts as [| |items]; [done|done|]. cbn [fst].
    by destruct (add_all_frame items (b_device_id b) self) as (-> & -> & _).
  - unfold step, handle, maa_screenshot, control_command.
    by destruct (bindings self !! get_sender_id ev).
  - unfold step, handle, maa_stop, control_command.
    by destruct (bindings self !! get_sender_id ev).
  - unfold step, handle, maa_heartbeat, control_command.
    by destruct (bindings self !! get_sender_id ev).
  - unfold step, handle, _handle_get_task. destruct req as [|value|data]; [done|done|].
    destruct (truthy (get data "device")); [|done]. simpl.
    by destruct (negb _).
  - unfold step, handle, _handle_report_status. destruct req as [|value|data]; [done|done|].
    by destruct (negb _ || negb _).
Qed.

Lemma bind_consistent self ev d :
  consistent self → consistent (step self (Bind ev d)).
Proof.
  intros [H1 H2]. unfold step, handle, maa_bind.
  destruct (bindings self !! get_sender_id ev) as [old|] eqn:Hop; [done|].
  destruct (device_to_sender self !! d) as [o|] eqn:Hdev; [done|].
  split; simpl.
  - intros op b. rewrite lookup_insert. case_decide as Hk.
    + intros [= <-]. simpl. subst op. by rewrite lookup_insert_eq.
    + intros Hb. destruct (H1 _ _ Hb) as [Hd Hu]. split; [|done].
      rewrite lookup_insert_ne; [done|]. intros Heq. rewrite <- Heq in Hd.
      congruence.
  - intros dev op. rewrite lookup_insert. case_decide as Hk.
    + intros [= <-]. subst dev. by rewrite lookup_insert_eq.
    + intros Hd. pose proof (H2 _ _ Hd) as Hb.
      rewrite lookup_insert_ne; [done|].
      intros <-. by rewrite Hop in Hb.
Qed.

Lemma unbind_consistent self ev :
  consistent self → consistent (step self (Unbind ev)).
Proof.
  intros [H1 H2]. unfold step, handle, maa_unbind.
  destruct (bindings self !! get_sender_id ev) as [old|] eqn:Hop; [|done].
  destruct (device_to_sender self !! b_device_id old) as [o|] eqn:Hdev; [|done].
  split; simpl.
  - intros op b. rewrite lookup_delete. case_decide as Hk; [done|].
    intros Hb. destruct (H1 _ _ Hb) as [Hd Hu]. split; [|done].
    rewrite lookup_delete_ne; [done|]. intros Heq.
    destruct (H1 _ _ Hop) as [Hd' _]. rewrite Heq in Hd'. congruence.
  - intros dev op. rewrite lookup_delete. case_decide as Hk; [done|].
    intros Hd. pose proof (H2 _ _ Hd) as Hb.
    rewrite lookup_delete_ne; [done|].
    intros <-. rewrite Hop in Hb. injection Hb as <-. done.
Qed.

Lemma step_consistent self i : consistent self → consistent (step self i).
Proof.
  intros H. destruct i as [ev d|ev| | | | | |] eqn:Hi;
    [by apply bind_consistent|by apply unbind_consistent|..];
    (destruct (step_registry self i) as [Hb Hd]; [by subst i..|];
     subst i; unfold consistent; by rewrite Hb, Hd).
Qed.

Lemma run_consistent inputs : ∀ self, consistent self → consistent (run self inputs).
Proof.
  induction inputs as [|i inputs IH]; intros self H; [done|].
  apply IH. by apply step_consistent.
Qed.

(** C2. Bijection invariant. From a consistent registry (the empty one of
    a fresh plugin is), after any sequence of inputs, bind and unbind among
    them: looking up the device of an operator's binding in the inverse
    index gives that operator back; no device id and no operator id occurs
    in two bindings; the inverse index has no entry without its binding;
    and a bind or unbind either changes nothing or inserts, respectively
    deletes, the entries of both indices in the same step. *)
Theorem registry_bijection (self : MAAPlugin) (inputs : list input) :
  consistent self →
  let s := run self inputs in
  (∀ op b, bindings s !! op = Some b →
           device_to_sender s !! b_device_id b = Some op)
  ∧ (∀ op1 op2 b1 b2,
       bindings s !! op1 = Some b1 → bindings s !! op2 = Some b2 →
       b_device_id b1 = b_device_id b2 ∨ b_user_id b1 = b_user_id b2 →
       op1 = op2)
  ∧ (∀ dev op, device_to_sender s !! dev = Some op →
               ∃ b, bindings s !! op = Some b ∧ b_device_id b = dev)
  ∧ (∀ ev d,
       let s' := step s (Bind ev d) in
       s' = s
       ∨ (bindings s' =
            <[get_sender_id ev :=
                Binding d (get_sender_id ev) (unified_msg_origin ev)]>
              (bindings s)
          ∧ device_to_sender s' = <[d := get_sender_id ev]> (device_to_sender s)))
  ∧ (∀ ev,
       let s' := step s (Unbind ev) in
       s' = s
       ∨ (∃ old, bindings s !! get_sender_id ev = Some old
                 ∧ bindings s' = delete (get_sender_id ev) (bindings s)
                 ∧ device_to_sender s' =
                     delete (b_device_id old) (device_to_sender s))).
Proof.
  intros H0 s. assert (consistent s) as [H1 H2] by by apply run_consistent.
  repeat split.
  - intros op b Hb. by destruct (H1 _ _ Hb).
  - intros op1 op2 b1 b2 Hb1 Hb2 Heq.
    destruct (H1 _ _ Hb1) as [Hd1 Hu1], (H1 _ _ Hb2) as [Hd2 Hu2].
    destruct Heq as [Heq|Heq]; congruence.
  - intros dev op Hd. pose proof (H2 _ _ Hd) as Hb.
    apply fmap_Some in Hb. destruct Hb as (b & Hb & ->). eauto.
  - intros ev d. unfold step, handle, maa_bind.
    destruct (bindings s !! get_sender_id ev); [by left|].
    destruct (device_to_sender s !! d); [by left|by right].
  - intros ev. unfold step, handle, maa_unbind.
    destruct (bindings s !! get_sender_id ev) as [old|]; [|by left].
    destruct (device_to_sender s !! b_device_id old); [|by left].
    right. by exists old.
Qed.

Lemma registry_bijection_witness :
  consistent (init true)
  ∧ device_to_sender (run (init true) [Bind U1 "D1"; Unbind U1; Bind U1 "D2"])
      !! "D2" = Some "U1".
Proof.
  assert (consistent (init true)) as H0 by by_evaluation.
  split; [exact H0|].
  destruct (registry_bijection (init true) [Bind U1 "D1"; Unbind U1; Bind U1 "D2"] H0)
    as (Hround & _).
  apply (Hround "U1" (Binding "D2" "U1" "qq:private:U1")).
  vm_compute. reflexivity.
Defined.

(** C4. Rebind rejection. When the operator already has a binding, or the
    device id is already in the inverse index, [maa_bind] leaves the whole
    plugin state as it was, saves nothing, and yields a single reply: the
    "already bound" one naming the operator's current device in the first
    case, the "device taken" one otherwise. *)
Theorem rebind_rejected (self : MAAPlugin) (event : AstrMessageEvent)
    (device_id : string) :
  is_Some (bindings self !! get_sender_id event)
  ∨ is_Some (device_to_sender self !! device_id) →
  maa_bind self event device_id =
    (self,
     emit (Yield match bindings self !! get_sender_id event with
                 | Some old => AlreadyBound (b_device_id old)
                 | None => DeviceTaken
                 end)).
Proof.
  intros H. unfold maa_bind.
  destruct (bindings self !! get_sender_id event) as [old|]; [done|].
  destruct H as [[? [=]]|[o Ho]]. by rewrite Ho.
Qed.

Lemma rebind_rejected_witness :
  (is_Some (bindings bound_plugin !! get_sender_id U1)
   ∨ is_Some (device_to_sender bound_plugin !! "D2"))
  ∧ maa_bind bound_plugin U1 "D2" =
      (bound_plugin, emit (Yield (AlreadyBound "D1"))).
Proof.
  assert (is_Some (bindings bound_plugin !! get_sender_id U1)
          ∨ is_Some (device_to_sender bound_plugin !! "D2")) as H.
  { left. vm_compute. eauto. }
  split; [exact H|].
  rewrite (rebind_rejected bound_plugin U1 "D2" H). reflexivity.
Defined.

(** ** Acknowledgement *)

Lemma lookup_executed_acknowledge self d t k :
  executed_tasks (acknowledge self d t) !! k =
    if decide (d = k)
    then Some (default ∅ (executed_tasks self !! d) ∪ {[t]})
    else executed_tasks self !! k.
Proof.
  unfold acknowledge; simpl. destruct (decide (d = k)) as [<-|Hne].
  - rewrite lookup_alter_eq.
    destruct (executed_tasks self !! d) as [s|] eqn:Hs; simpl.
    + by rewrite Hs.
    + by rewrite lookup_insert_eq.
  - rewrite lookup_alter_ne by done.
    destruct (executed_tasks self !! d); [done|].
    by rewrite lookup_insert_ne.
Qed.

Lemma lookup_queues_acknowledge self d t k :
  task_queues (acknowledge self d t) !! k =
    if decide (d = k)
    then filter (λ x, t_id x ≠ t) <$> task_queues self !! d
    else task_queues self !! k.
Proof.
  unfold acknowledge; simpl. destruct (decide (d = k)) as [<-|Hne].
  - destruct (task_queues self !! d) as [q|] eqn:Hq; simpl.
    + by rewrite lookup_insert_eq.
    + by rewrite Hq.
  - destruct (task_queues self !! d); [|done].
    by rewrite lookup_insert_ne.
Qed.

Lemma executed_acknowledge self d t d' :
  executed (acknowledge self d t) d' =
    if decide (d = d') then executed self d ∪ {[t]} else executed self d'.
Proof.
  unfold executed. rewrite lookup_executed_acknowledge. by case_decide.
Qed.

Lemma queue_acknowledge self d t d' :
  queue (acknowledge self d t) d' =
    if decide (d = d') then filter (λ x, t_id x ≠ t) (queue self d)
    else queue self d'.
Proof.
  unfold queue. rewrite lookup_queues_acknowledge. case_decide; [|done].
  by destruct (task_queues self !! d).
Qed.

Lemma acknowledge_frame self d t :
  auto_screenshot (acknowledge self d t) = auto_screenshot self
  ∧ bindings (acknowledge self d t) = bindings self
  ∧ device_to_sender (acknowledge self d t) = device_to_sender self
  ∧ device_last_seen (acknowledge self d t) = device_last_seen self.
Proof. done. Qed.

Lemma plugin_eq (s1 s2 : MAAPlugin) :
  auto_screenshot s1 = auto_screenshot s2 → bindings s1 = bindings s2 →
  device_to_sender s1 = device_to_sender s2 →
  task_queues s1 = task_queues s2 → executed_tasks s1 = executed_tasks s2 →
  device_last_seen s1 = device_last_seen s2 → s1 = s2.
Proof. destruct s1, s2; simpl; intros; by subst. Qed.

Lemma acknowledge_idempotent self d t :
  acknowledge (acknowledge self d t) d t = acknowledge self d t.
Proof.
  apply plugin_eq; try done.
  - apply map_eq. intros k. rewrite !lookup_queues_acknowledge.
    case_decide; [|done]. rewrite decide_True by done.
    destruct (task_queues self !! d) as [q|]; [|done]. simpl. f_equal.
    rewrite list_filter_filter. apply list_filter_iff. tauto.
  - apply map_eq. intros k. rewrite !lookup_executed_acknowledge.
    case_decide; [|done]. rewrite decide_True by done. simpl.
    f_equal. by rewrite <- (assoc_L (∪)), (idemp_L (∪)).
Qed.

(** C5. Acknowledge is idempotent. Acknowledging ([reportStatus]) a second
    time with the same request leaves the state the first one produced,
    whatever the notification I/O does; an acknowledgement puts the task id
    in the device's executed set, changes no table of executed ids when the
    id is already there, and keeps in the queue exactly the tasks with
    another id, in their order. *)
Theorem acknowledge_twice (self : MAAPlugin) (req : request)
    (io1 io2 : report_io) (device_id task_id : string) :
  let once := fst (_handle_report_status self req io1) in
  fst (_handle_report_status once req io2) = once
  ∧ acknowledge (acknowledge self device_id task_id) device_id task_id
    = acknowledge self device_id task_id
  ∧ task_id ∈ executed (acknowledge self device_id task_id) device_id
  ∧ (task_id ∈ executed self device_id
       ↔ executed_tasks (acknowledge self device_id task_id)
         = executed_tasks self)
  ∧ queue (acknowledge self device_id task_id) device_id
    = filter (λ t, t_id t ≠ task_id) (queue self device_id).
Proof.
  intros once. subst once. repeat split.
  - unfold _handle_report_status. destruct req as [|value|data]; [done|done|].
    destruct (negb _ || negb _); cbn [fst]; [done|].
    apply acknowledge_idempotent.
  - apply acknowledge_idempotent.
  - rewrite executed_acknowledge. rewrite decide_True by done.
    apply elem_of_union. right. by apply elem_of_singleton.
  - intros Hin. unfold executed in Hin. unfold acknowledge; simpl.
    destruct (executed_tasks self !! device_id) as [s|] eqn:Hs;
      [|by apply not_elem_of_empty in Hin].
    simpl in Hin. apply map_eq. intros k.
    destruct (decide (device_id = k)) as [<-|Hne].
    + rewrite lookup_alter_eq, Hs. simpl. f_equal.
      rewrite (comm_L (∪)). apply subseteq_union_1_L.
      by apply singleton_subseteq_l.
    + by rewrite lookup_alter_ne.
  - intros Heq.
    pose proof (executed_acknowledge self device_id task_id device_id) as He.
    rewrite decide_True in He by done. unfold executed in He at 1.
    rewrite Heq in He. fold (executed self device_id) in He.
    rewrite He. apply elem_of_union. right. by apply elem_of_singleton.
  - rewrite queue_acknowledge. by rewrite decide_True.
Qed.

(** ** Protocol errors *)

(** The two kinds of request the handlers answer 400: a [getTask] request
    whose body does not parse or whose device is missing or empty, and a
    [reportStatus] request whose body does not parse or whose device or
    task is missing or empty. The handler then performs no effect and the
    plugin state (queues, executed sets, presence, bindings) is the one it
    had. *)
Lemma protocol_error_no_mutation (self : MAAPlugin)
    (req_get req_report : request) (now : Z) (io : report_io) :
  malformed_get req_get → malformed_report req_report →
  _handle_get_task self req_get now = (self, ret (Response 400 (Tasks [])))
  ∧ _handle_report_status self req_report io = (self, ret (Response 400 NoBody)).
Proof.
  intros Hg Hr. split.
  - unfold _handle_get_task. destruct req_get as [|value|data]; [done|done|].
    simpl in Hg. by rewrite Hg.
  - unfold _handle_report_status. destruct req_report as [|value|data]; [done|done|].
    simpl in Hr. destruct Hr as [-> | ->]; [done|].
    by rewrite orb_true_r.
Qed.

Lemma protocol_error_no_mutation_witness :
  malformed_get (Object (get_request "" "U1"))
  ∧ malformed_report (Object (report_request "D1" "" "done" ""))
  ∧ _handle_get_task combat_plugin (Object (get_request "" "U1")) 7
    = (combat_plugin, ret (Response 400 (Tasks [])))
  ∧ _handle_report_status combat_plugin
      (Object (report_request "D1" "" "done" "")) io_ok
    = (combat_plugin, ret (Response 400 NoBody)).
Proof.
  assert (malformed_get (Object (get_request "" "U1"))) as Hg by reflexivity.
  assert (malformed_report (Object (report_request "D1" "" "done" ""))) as Hr
    by (right; reflexivity).
  split; [exact Hg|]. split; [exact Hr|].
  exact (protocol_error_no_mutation combat_plugin _ _ 7 io_ok Hg Hr).
Defined.

(** C6, at the failing inputs: a body that parses to a JSON value other
    than an object (an array, a string, a number, true, false or null). Its
    required fields are missing, but [data.get] is called outside the
    [try], so both handlers are left by an [AttributeError] before any
    effect instead of answering 400; the plugin state is unchanged. *)
Theorem non_object_body_raises (self : MAAPlugin) (value : non_object)
    (now : Z) (io : report_io) :
  _handle_get_task self (NotObject value) now
  = (self, ([], inl (attribute_error value)))
  ∧ _handle_report_status self (NotObject value) io
    = (self, ([], inl (attribute_error value)))
  ∧ attribute_error JArray = "'list' object has no attribute 'get'".
Proof. done. Qed.

(** Conversely, whenever a handler answers 400 it has changed nothing. *)
Lemma status_400_no_mutation self req now io r :
  (result (snd (_handle_get_task self req now)) = inr r → status r = 400 →
   fst (_handle_get_task self req now) = self)
  ∧ (result (snd (_handle_report_status self req io)) = inr r → status r = 400 →
     fst (_handle_report_status self req io) = self).
Proof.
  split.
  - unfold _handle_get_task. destruct req as [|value|data]; [done|done|].
    destruct (negb (truthy (get data "device"))); [done|].
    cbn [device_to_sender task_queues executed_tasks].
    destruct (negb (from_option truthy false _)); by intros [= <-].
  - unfold _handle_report_status. destruct req as [|value|data]; [done|done|].
    destruct (negb _ || negb _); [done|]. cbn [fst snd].
    destruct (notify _ io _ _ _) as [fs [e|[]]]; [done|].
    by intros [= <-].
Qed.

(** C10. The [user] member of a [getTask] request is never used to select,
    filter or gate tasks: two requests that agree on every member other
    than [user] (it may be anything, empty or absent on either side) get
    the same result (HTTP status and task list) and leave the same state.
    The member only reaches the debug log line of the unbound case. *)
Theorem get_task_ignores_user (self : MAAPlugin)
    (data1 data2 : gmap string string) (now : Z) :
  delete "user" data1 = delete "user" data2 →
  fst (_handle_get_task self (Object data1) now)
  = fst (_handle_get_task self (Object data2) now)
  ∧ result (snd (_handle_get_task self (Object data1) now))
    = result (snd (_handle_get_task self (Object data2) now)).
Proof.
  intros Heq.
  assert (get data1 "device" = get data2 "device") as Hdev.
  { unfold get. rewrite <- (lookup_delete_ne data1 "user" "device") by done.
    rewrite <- (lookup_delete_ne data2 "user" "device") by done.
    by rewrite Heq. }
  unfold _handle_get_task. rewrite Hdev.
  destruct (negb (truthy (get data2 "device"))); [done|].
  cbn [device_to_sender task_queues executed_tasks].
  by destruct (negb (from_option truthy false _)).
Qed.

Lemma get_task_ignores_user_witness :
  delete "user" (get_request "D1" "U1") = delete "user" (get_request "D1" "")
  ∧ poll combat_plugin "D1" "U1" 7 = poll combat_plugin "D1" "" 7.
Proof.
  assert (delete "user" (get_request "D1" "U1")
          = delete "user" (get_request "D1" "")) as H by (by vm_compute).
  split; [exact H|].
  exact (proj2 (get_task_ignores_user combat_plugin _ _ 7 H)).
Defined.

(** ** Queues *)

Lemma queue_set_queue self d q d' :
  queue (set_queue self d q) d' = if decide (d = d') then q else queue self d'.
Proof.
  unfold queue, set_queue; simpl. case_decide as Hd.
  - subst. by rewrite lookup_insert_eq.
  - by rewrite lookup_insert_ne.
Qed.

Lemma queue_add_task self d ty p u1 u2 d' :
  queue (fst (_add_task self d ty p u1 u2)) d' =
    if decide (d = d') then queue self d ++ appended self ty p u1 u2
    else queue self d'.
Proof.
  unfold _add_task. cbn [fst]. rewrite queue_set_queue.
  case_decide; [|done]. unfold appended. fold (queue self d).
  destruct (auto_screenshot self && negb (exempt ty)); [|done].
  by rewrite <- app_assoc.
Qed.

Lemma queue_insert_head self d t d' :
  queue (insert_head self d t) d' =
    if decide (d = d') then t :: queue self d else queue self d'.
Proof. unfold insert_head. by rewrite queue_set_queue. Qed.

Lemma queue_add_all_mono items d self d' x :
  x ∈ queue self d' → x ∈ queue (add_all d self items) d'.
Proof.
  revert self. induction items as [|it items IH]; intros self Hx; [done|].
  unfold add_all in *. cbn [foldl]. apply IH.
  rewrite queue_add_task. case_decide; [|done]. subst.
  apply elem_of_app. by left.
Qed.

Lemma queue_add_all_origin items d self d' x :
  x ∈ queue (add_all d self items) d' →
  x ∈ queue self d' ∨ t_id x ∈ items ≫= (λ it, [si_uuid1 it; si_uuid2 it]).
Proof.
  revert self. induction items as [|it items IH]; intros self Hx; [by left|].
  unfold add_all in *. cbn [foldl] in Hx. apply IH in Hx.
  destruct Hx as [Hx|Hx].
  - rewrite queue_add_task in Hx. case_decide; [|by left]. subst.
    apply elem_of_app in Hx. destruct Hx as [Hx|Hx]; [by left|].
    right. cbn [mbind list_bind]. apply elem_of_app. left.
    unfold appended in Hx. apply elem_of_cons in Hx. destruct Hx as [->|Hx].
    + simpl. apply elem_of_cons. by left.
    + destruct (auto_screenshot self && negb (exempt (si_type it)));
        [|by apply elem_of_nil in Hx].
      apply list_elem_of_singleton in Hx. subst x. simpl.
      apply elem_of_cons. right. apply elem_of_cons. by left.
  - right. cbn [mbind list_bind]. apply elem_of_app. by right.
Qed.

(** A task found in a queue after an input was there before it, or it
    carries a token [uuid4] returned while the input was handled. *)
Lemma step_queue_origin self i d x :
  x ∈ queue (step self i) d →
  x ∈ queue self d ∨ t_id x ∈ uuids_of i.
Proof.
  destruct i as [ev dev|ev|ev ts|ev u|ev u|ev u|req now|req io];
    unfold step, handle.
  - unfold maa_bind. destruct (bindings self !! get_sender_id ev); [by left|].
    destruct (device_to_sender self !! dev); by left.
  - unfold maa_unbind.
    destruct (bindings self !! get_sender_id ev) as [old|]; [|by left].
    destruct (device_to_sender self !! b_device_id old); [|by left].
    unfold queue; simpl. intros Hx. left.
    destruct (decide (b_device_id old = d)) as [<-|Hne].
    + rewrite lookup_delete_eq in Hx. by apply elem_of_nil in Hx.
    + by rewrite lookup_delete_ne in Hx.
  - unfold maa_start.
    destruct (bindings self !! get_sender_id ev) as [b|]; [|by left].
    destruct ts as [| |items]; [by left|by left|]. cbn [fst uuids_of].
    apply queue_add_all_origin.
  - unfold maa_screenshot, control_command.
    destruct (bindings self !! get_sender_id ev) as [b|]; [|by left].
    cbn [fst uuids_of]. rewrite queue_insert_head. case_decide; [|by left].
    subst. intros [->|Hx]%elem_of_cons; [right|by left].
    by apply list_elem_of_singleton.
  - unfold maa_stop, control_command.
    destruct (bindings self !! get_sender_id ev) as [b|]; [|by left].
    cbn [fst uuids_of]. rewrite queue_insert_head. case_decide; [|by left].
    subst. intros [->|Hx]%elem_of_cons; [right|by left].
    by apply list_elem_of_singleton.
  - unfold maa_heartbeat, control_command.
    destruct (bindings self !! get_sender_id ev) as [b|]; [|by left].
    cbn [fst uuids_of]. rewrite queue_insert_head. case_decide; [|by left].
    subst. intros [->|Hx]%elem_of_cons; [right|by left].
    by apply list_elem_of_singleton.
  - unfold _handle_get_task. destruct req as [|value|data]; [by left|by left|].
    destruct (negb (truthy (get data "device"))); [by left|].
    cbn [device_to_sender task_queues executed_tasks].
    destruct (negb (from_option truthy false _)); by left.
  - unfold _handle_report_status. destruct req as [|value|data]; [by left|by left|].
    destruct (negb _ || negb _); [by left|]. cbn [fst].
    rewrite queue_acknowledge. case_decide; [|by left]. subst.
    intros [_ Hx]%list_elem_of_filter. by left.
Qed.

(** ** Delivery *)

(** Every way of enqueueing leaves the new task in the device's queue:
    [_add_task] at the tail, under the id it returns, and a control command
    at the head. *)
Lemma enqueued_is_queued self d ty p u1 u2 :
  Task u1 ty (if truthy p then Some p else None)
    ∈ queue (fst (_add_task self d ty p u1 u2)) d
  ∧ snd (_add_task self d ty p u1 u2) = u1
  ∧ ∀ ev u b done,
      bindings self !! get_sender_id ev = Some b →
      Task u ty None
        ∈ queue (fst (control_command ty done self ev u)) (b_device_id b).
Proof.
  split; [|split; [done|]].
  - rewrite queue_add_task, decide_True by done.
    apply elem_of_app. right. apply elem_of_cons. by left.
  - intros ev u b done Hb. unfold control_command. rewrite Hb. cbn [fst].
    rewrite queue_insert_head, decide_True by done.
    apply elem_of_cons. by left.
Qed.

Lemma step_held dev op t self i :
  is_unbind_of op i = false → is_ack_of dev (t_id t) i = false →
  held dev op t self → held dev op t (step self i).
Proof.
  intros Hu Ha (Hc & Hd & Hq & He).
  split; [by apply step_consistent|].
  destruct i as [ev d|ev|ev ts|ev u|ev u|ev u|req now|req io];
    unfold step, handle.
  - unfold maa_bind. destruct (bindings self !! get_sender_id ev); [done|].
    destruct (device_to_sender self !! d) eqn:Hdd; [done|].
    cbn [fst]. split; [|done]. simpl.
    rewrite lookup_insert_ne; [done|]. intros ->. congruence.
  - unfold maa_unbind.
    destruct (bindings self !! get_sender_id ev) as [old|] eqn:Hb; [|done].
    destruct (device_to_sender self !! b_device_id old) eqn:Hdd; [|done].
    assert (b_device_id old ≠ dev) as Hne.
    { intros Heq. destruct Hc as [H1 _]. destruct (H1 _ _ Hb) as [Hd' _].
      rewrite Heq, Hd in Hd'. injection Hd' as Hop.
      simpl in Hu. apply bool_decide_eq_false in Hu. by destruct Hu. }
    unfold queue, executed; simpl. by rewrite !lookup_delete_ne.
  - unfold maa_start.
    destruct (bindings self !! get_sender_id ev) as [b|]; [|done].
    destruct ts as [| |items]; [done|done|]. cbn [fst].
    destruct (add_all_frame items (b_device_id b) self) as (_ & Hdts & Hex & _).
    unfold executed. rewrite Hdts, Hex.
    split; [done|]. split; [|done]. by apply queue_add_all_mono.
  - unfold maa_screenshot, control_command.
    destruct (bindings self !! get_sender_id ev) as [b|]; [|done].
    cbn [fst]. split; [done|]. split; [|done].
    rewrite queue_insert_head. case_decide; [|done]. subst.
    apply elem_of_cons. by right.
  - unfold maa_stop, control_command.
    destruct (bindings self !! get_sender_id ev) as [b|]; [|done].
    cbn [fst]. split; [done|]. split; [|done].
    rewrite queue_insert_head. case_decide; [|done]. subst.
    apply elem_of_cons. by right.
  - unfold maa_heartbeat, control_command.
    destruct (bindings self !! get_sender_id ev) as [b|]; [|done].
    cbn [fst]. split; [done|]. split; [|done].
    rewrite queue_insert_head. case_decide; [|done]. subst.
    apply elem_of_cons. by right.
  - unfold _handle_get_task. destruct req as [|value|data]; [done|done|].
    destruct (negb (truthy (get data "device"))); [done|].
    cbn [device_to_sender task_queues executed_tasks].
    destruct (negb (from_option truthy false _)); done.
  - unfold _handle_report_status. destruct req as [|value|data]; [done|done|].
    destruct (negb _ || negb _); [done|]. cbn [fst].
    split; [done|]. rewrite queue_acknowledge, executed_acknowledge.
    case_decide as Hdev; [|done]. simpl in Ha.
    apply bool_decide_eq_false in Ha.
    assert (get data "task" ≠ t_id t) as Hne by (intros Heq; by apply Ha).
    split.
    + rewrite Hdev. apply list_elem_of_filter. split; [done|congruence].
    + rewrite Hdev. intros [Hin|Hin%elem_of_singleton]%elem_of_union; [done|].
      by apply Hne.
Qed.

Lemma run_held dev op t inputs : ∀ self,
  Forall (λ i, is_unbind_of op i = false ∧ is_ack_of dev (t_id t) i = false)
         inputs →
  held dev op t self → held dev op t (run self inputs).
Proof.
  induction inputs as [|i inputs IH]; intros self Hall Hh; [done|].
  apply Forall_cons in Hall. destruct Hall as [[Hu Ha] Hall].
  apply IH; [done|]. by apply step_held.
Qed.

Lemma poll_held dev op t self user now :
  dev ≠ "" → op ≠ "" → held dev op t self →
  ∃ ts, poll self dev user now = inr (Response 200 (Tasks ts)) ∧ t ∈ ts.
Proof.
  intros Hdev Hop (_ & Hd & Hq & He).
  unfold poll, _handle_get_task.
  assert (get (get_request dev user) "device" = dev) as ->.
  { unfold get, get_request. by rewrite lookup_insert_eq. }
  unfold truthy at 1. rewrite bool_decide_eq_true_2 by done.
  cbn [negb device_to_sender task_queues executed_tasks].
  rewrite Hd. cbn [from_option]. unfold truthy.
  rewrite bool_decide_eq_true_2 by done. cbn [negb snd result].
  eexists. split; [reflexivity|].
  apply list_elem_of_filter. split; [done|done].
Qed.

(** Every answer to a poll is a 200 or 400 response carrying tasks of the
    device's queue; the handler never raises. *)
Lemma poll_from_queue self dev user now :
  ∃ r, poll self dev user now = inr r ∧ ∀ x, x ∈ tasks_of r → x ∈ queue self dev.
Proof.
  unfold poll, _handle_get_task.
  assert (get (get_request dev user) "device" = dev) as ->.
  { unfold get, get_request. by rewrite lookup_insert_eq. }
  destruct (negb (truthy dev)).
  { eexists. split; [reflexivity|]. intros x Hx. by apply elem_of_nil in Hx. }
  cbn [device_to_sender task_queues executed_tasks].
  destruct (negb (from_option truthy false _)).
  { eexists. split; [reflexivity|]. intros x Hx. by apply elem_of_nil in Hx. }
  eexists. split; [reflexivity|]. intros x Hx. cbn in Hx.
  by apply list_elem_of_filter in Hx as [_ Hx].
Qed.

Lemma run_queue_origin inputs : ∀ self d x,
  x ∈ queue (run self inputs) d →
  x ∈ queue self d ∨ Exists (λ i, t_id x ∈ uuids_of i) inputs.
Proof.
  induction inputs as [|i inputs IH]; intros self d x Hx; [by left|].
  apply IH in Hx. destruct Hx as [Hx|Hx].
  - apply step_queue_origin in Hx. destruct Hx as [Hx|Hx]; [by left|].
    right. by apply Exists_cons_hd.
  - right. by apply Exists_cons_tl.
Qed.

(** C1. At-least-once delivery. Let device [dev] (a non-empty id) be bound
    to a non-empty operator id in a consistent registry, and let [t] be a
    task in its queue whose id is non-empty and not in the executed set.
    (1) After any inputs that contain neither the unbind of that operator
    nor a [reportStatus] of [dev] for the id of [t], every poll of [dev] is
    answered 200 with a task list that contains [t]. (2) Once such a
    [reportStatus] has been handled, then after any further inputs during
    which [uuid4] does not return that id again, every poll of [dev] is
    answered with a task list in which no task has the id of [t]. *)
Theorem at_least_once (self : MAAPlugin) (dev op : string) (t : task)
    (before after : list input) (ack : gmap string string) (io : report_io)
    (user : string) (now : Z) :
  consistent self →
  dev ≠ "" → op ≠ "" → t_id t ≠ "" →
  device_to_sender self !! dev = Some op →
  t ∈ queue self dev →
  t_id t ∉ executed self dev →
  Forall (λ i, is_unbind_of op i = false ∧ is_ack_of dev (t_id t) i = false)
         before →
  get ack "device" = dev → get ack "task" = t_id t →
  Forall (λ i, t_id t ∉ uuids_of i) after →
  let s1 := run self before in
  let s2 := run (step s1 (ReportStatus (Object ack) io)) after in
  (∃ ts, poll s1 dev user now = inr (Response 200 (Tasks ts)) ∧ t ∈ ts)
  ∧ (∃ r, poll s2 dev user now = inr r
          ∧ ∀ x, x ∈ tasks_of r → t_id x ≠ t_id t).
Proof.
  intros Hc Hdev Hop Htid Hd Hq He Hbefore Hackd Hackt Hafter s1 s2.
  assert (held dev op t s1) as Hheld by by apply run_held.
  split; [by apply (poll_held dev op t)|].
  destruct (poll_from_queue s2 dev user now) as (r & Hr & Hsub).
  exists r. split; [done|]. intros x Hx Hid. apply Hsub in Hx.
  apply run_queue_origin in Hx. destruct Hx as [Hx|Hx].
  - revert Hx. unfold step, handle, _handle_report_status.
    rewrite Hackd, Hackt.
    unfold truthy at 1 2. rewrite !bool_decide_eq_true_2 by done.
    cbn [negb orb fst]. rewrite queue_acknowledge, decide_True by done.
    intros [Hne _]%list_elem_of_filter. done.
  - apply Exists_exists in Hx. destruct Hx as (i & Hi & Hin).
    rewrite Forall_forall in Hafter. apply (Hafter i Hi). by rewrite <- Hid.
Qed.

Lemma at_least_once_witness :
  consistent combat_plugin
  ∧ combat_task ∈ queue combat_plugin "D1"
  ∧ (∃ ts, poll (run combat_plugin inputs_before) "D1" "U1" 9
           = inr (Response 200 (Tasks ts)) ∧ combat_task ∈ ts)
  ∧ (∃ r, poll (run (step (run combat_plugin inputs_before)
                          (ReportStatus (Object combat_report) io_ok))
                     inputs_after) "D1" "U1" 9 = inr r
          ∧ ∀ x, x ∈ tasks_of r → t_id x ≠ "id-1").
Proof.
  assert (consistent combat_plugin) as Hc by by_evaluation.
  assert (combat_task ∈ queue combat_plugin "D1") as Hq by by_evaluation.
  split; [exact Hc|]. split; [exact Hq|].
  apply (at_least_once combat_plugin "D1" "U1" combat_task
           inputs_before inputs_after combat_report io_ok "U1" 9);
    try done; by_evaluation.
Defined.

(** ** Auto-screenshot *)

(** The claim of C3 fails for head-priority enqueues: with the option on,
    [maa_stop] queues a [StopTask], whose type is not exempt, and nothing
    else. *)
Lemma stop_gets_no_screenshot :
  auto_screenshot bound_plugin = true
  ∧ exempt "StopTask" = false
  ∧ queue bound_plugin "D1" = []
  ∧ queue (fst (maa_stop bound_plugin U1 "id-9")) "D1"
    = [Task "id-9" "StopTask" None].
Proof. by vm_compute. Qed.

(** C3, amended. With the auto-screenshot option on, [_add_task] (the
    normal-priority enqueue) appends exactly two tasks for a type outside
    {CaptureImage, CaptureImageNow, HeartBeat}: the requested one, then a
    CaptureImage task at the tail whose id is the second [uuid4] token,
    distinct from the first as the tokens are; for an exempt type it
    appends the requested task alone. The appended CaptureImage task is
    itself of an exempt type and is put in the queue directly. The three
    head-priority commands put exactly one task at the head of the queue
    and append nothing, [maa_stop] included. *)
Theorem auto_screenshot_injection (self : MAAPlugin)
    (device_id task_type params uuid1 uuid2 : string) :
  auto_screenshot self = true → uuid1 ≠ uuid2 →
  let s' := fst (_add_task self device_id task_type params uuid1 uuid2) in
  let requested :=
    Task uuid1 task_type (if truthy params then Some params else None) in
  let shot := Task uuid2 "CaptureImage" None in
  (exempt task_type = true
     ↔ task_type ∈ ["CaptureImage"; "CaptureImageNow"; "HeartBeat"])
  ∧ (exempt task_type = false →
       queue s' device_id = queue self device_id ++ [requested; shot])
  ∧ (exempt task_type = true →
       queue s' device_id = queue self device_id ++ [requested])
  ∧ t_id requested ≠ t_id shot
  ∧ exempt (t_type shot) = true
  ∧ (∀ event uuid b,
       bindings self !! get_sender_id event = Some b →
       queue (fst (maa_stop self event uuid)) (b_device_id b)
         = Task uuid "StopTask" None :: queue self (b_device_id b)
       ∧ queue (fst (maa_screenshot self event uuid)) (b_device_id b)
         = Task uuid "CaptureImageNow" None :: queue self (b_device_id b)
       ∧ queue (fst (maa_heartbeat self event uuid)) (b_device_id b)
         = Task uuid "HeartBeat" None :: queue self (b_device_id b)).
Proof.
  intros Hauto Hne s' requested shot. subst s'.
  split; [apply bool_decide_eq_true|].
  split; [|split]; [intros Hex|intros Hex|].
  - rewrite queue_add_task, decide_True by done.
    unfold appended. by rewrite Hauto, Hex.
  - rewrite queue_add_task, decide_True by done.
    unfold appended. by rewrite Hauto, Hex.
  - split; [done|]. split; [done|].
    intros event uuid b Hb.
    unfold maa_stop, maa_screenshot, maa_heartbeat, control_command.
    rewrite Hb. cbn [fst]. rewrite !queue_insert_head.
    rewrite !decide_True by done. done.
Qed.

Lemma auto_screenshot_injection_witness :
  auto_screenshot bound_plugin = true ∧ "id-1" ≠ "id-2"
  ∧ queue combat_plugin "D1"
    = [Task "id-1" "LinkStart-Combat" None; Task "id-2" "CaptureImage" None].
Proof.
  assert (auto_screenshot bound_plugin = true) as Hauto by reflexivity.
  assert ("id-1" ≠ "id-2") as Hne by by_evaluation.
  split; [exact Hauto|]. split; [exact Hne|].
  destruct (auto_screenshot_injection bound_plugin "D1" "LinkStart-Combat" ""
              "id-1" "id-2" Hauto Hne) as (_ & Htwo & _).
  transitivity (queue (fst (_add_task bound_plugin "D1" "LinkStart-Combat" ""
                                      "id-1" "id-2")) "D1").
  - by vm_compute.
  - rewrite Htwo by (by vm_compute). by vm_compute.
Defined.

(** ** Notification *)

Lemma is_screenshot_length payload :
  is_screenshot payload = bool_decide (100 < String.length payload).
Proof.
  unfold is_screenshot, truthy.
  destruct payload as [|c payload]; [done|].
  by rewrite bool_decide_eq_true_2.
Qed.

(** The claim of C7 fails: the handler awaits the send, so when the channel
    refuses the text-only notification the exception leaves the handler and
    no 200 response is returned, while the same request is answered 200
    when the send completes. *)
Lemma report_waits_for_send :
  snd (_handle_report_status combat_plugin (Object combat_report) io_send_fails)
  = ([SendMessage "qq:private:U1" (Chain (completion_message "done") None)
        (Some "send failed")],
     inl "send failed")
  ∧ result (snd (_handle_report_status combat_plugin (Object combat_report)
                   io_ok))
    = inr (Response 200 NoBody).
Proof. by vm_compute. Qed.

(** For any state and request with a body that is an object or does not
    parse, the handler is left by the exception of its last send when that
    one raised, and returns a response otherwise; on a body that is no
    object it raises before any effect. *)
Lemma result_by_last_send (self : MAAPlugin) (req : request) (io : report_io) :
  let m := snd (_handle_report_status self req io) in
  match req with
  | NotObject value => m = raise (attribute_error value)
  | _ =>
    match last_send (effects m) with
    | Some (Some e) => result m = inl e
    | _ => ∃ r, result m = inr r ∧ (status r = 200 ∨ status r = 400)
    end
  end.
Proof.
  unfold _handle_report_status.
  destruct req as [|value|data]; [simpl; eauto|done|].
  destruct (negb _ || negb _); [simpl; eauto|]. cbn [snd].
  generalize (acknowledge self (get data "device") (get data "task")).
  intros s. unfold notify.
  destruct (device_to_sender s !! get data "device") as [sender|];
    [|simpl; eauto].
  destruct (truthy sender); [|simpl; eauto].
  destruct (bindings s !! sender) as [b|]; [|simpl; eauto].
  destruct (truthy (b_umo b)); [|simpl; eauto].
  generalize (completion_message (get data "status")). intros message.
  destruct (is_screenshot (get data "payload")).
  - unfold _send_screenshot, screenshot_failed.
    destruct io as [dec mk hex wr snd1 snd2].
    destruct dec as [e|bytes], mk as [e1|], wr as [e2|], snd1 as [e3|],
      snd2 as [e4|]; simpl; eauto.
  - destruct (io_send io); simpl; eauto.
Qed.

(** A well-formed report of a device that is bound to an operator with a
    channel address. *)
Section bound_device.
Context (self : MAAPlugin) (data : gmap string string) (io : report_io).
Context (op : string) (b : binding).
Hypothesis Hdevice : get data "device" ≠ "".
Hypothesis Htask : get data "task" ≠ "".
Hypothesis Hsender : device_to_sender self !! get data "device" = Some op.
Hypothesis Hop : op ≠ "".
Hypothesis Hbinding : bindings self !! op = Some b.
Hypothesis Humo : b_umo b ≠ "".

Let payload := get data "payload".
Let message := completion_message (get data "status").

(** The handler acknowledges, runs one of the two notifications and then
    returns 200. *)
Lemma report_bound :
  _handle_report_status self (Object data) io
  = (acknowledge self (get data "device") (get data "task"),
     (if bool_decide (100 < String.length payload)
      then try_except (_send_screenshot io (b_umo b) payload message)
                      (screenshot_failed io (b_umo b) message)
      else perform (SendMessage (b_umo b) (Chain message None)) (io_send io))
     ;;ᴹ ret (Response 200 NoBody)).
Proof using Hdevice Htask Hsender Hop Hbinding Humo.
  unfold _handle_report_status, truthy.
  rewrite !bool_decide_eq_true_2 by done. cbn [negb orb].
  f_equal. f_equal. unfold notify, truthy.
  destruct (acknowledge_frame self (get data "device") (get data "task"))
    as (_ & -> & -> & _).
  rewrite Hsender. rewrite bool_decide_eq_true_2 by done.
  rewrite Hbinding. rewrite bool_decide_eq_true_2 by done.
  by rewrite is_screenshot_length.
Qed.
End bound_device.

Lemma effects_then_ret {A} (k : M unit) (a : A) :
  effects (k ;;ᴹ ret a) = effects k
  ∧ result (k ;;ᴹ ret a) = match result k with
                           | inl e => inl e
                           | inr _ => inr a
                           end.
Proof. destruct k as [fs [e|[]]]; [done|]. simpl. by rewrite app_nil_r. Qed.

(** C7, amended. [_handle_report_status] awaits every channel send before
    it goes on, so the response waits for the notification: for a
    well-formed report of a device bound to an operator with a channel
    address, a send is always attempted among the effects the handler
    performs before it finishes, and how the last of them ended decides
    the outcome: the 200 response when it completed, the exception of the
    send, and no response, when it raised. Only the deletion of the
    temporary file is created as a task of its own. *)
Theorem response_follows_send (self : MAAPlugin) (data : gmap string string)
    (io : report_io) (op : string) (b : binding) :
  get data "device" ≠ "" → get data "task" ≠ "" →
  device_to_sender self !! get data "device" = Some op → op ≠ "" →
  bindings self !! op = Some b → b_umo b ≠ "" →
  let m := snd (_handle_report_status self (Object data) io) in
  ∃ r : io_result,
    last_send (effects m) = Some r
    ∧ result m = match r with
                 | Some e => inl e
                 | None => inr (Response 200 NoBody)
                 end.
Proof.
  intros Hdev Htask Hd Hop Hb Humo m. subst m.
  rewrite (report_bound self data io op b) by done. cbn [snd].
  destruct (effects_then_ret
              (if bool_decide (100 < String.length (get data "payload"))
               then try_except
                      (_send_screenshot io (b_umo b) (get data "payload")
                         (completion_message (get data "status")))
                      (screenshot_failed io (b_umo b)
                         (completion_message (get data "status")))
               else perform (SendMessage (b_umo b)
                               (Chain (completion_message (get data "status"))
                                      None)) (io_send io))
              (Response 200 NoBody)) as [-> ->].
  generalize (completion_message (get data "status")). intros message.
  destruct (bool_decide _).
  - unfold _send_screenshot, screenshot_failed.
    destruct io as [dec mk hex wr snd1 snd2].
    destruct dec as [e|bytes], mk as [e1|], wr as [e2|], snd1 as [e3|],
      snd2 as [e4|]; simpl; eauto.
  - destruct (io_send io); simpl; eauto.
Qed.

Lemma response_follows_send_witness :
  (get combat_report "device" ≠ "" ∧ get combat_report "task" ≠ ""
   ∧ device_to_sender combat_plugin !! get combat_report "device" = Some "U1"
   ∧ "U1" ≠ ""
   ∧ bindings combat_plugin !! "U1" = Some (Binding "D1" "U1" "qq:private:U1")
   ∧ b_umo (Binding "D1" "U1" "qq:private:U1") ≠ "")
  ∧ ∃ r : io_result,
      last_send (effects (snd (_handle_report_status combat_plugin
                                 (Object combat_report) io_send_fails)))
      = Some r
      ∧ result (snd (_handle_report_status combat_plugin (Object combat_report)
                       io_send_fails))
        = match r with
          | Some e => inl e
          | None => inr (Response 200 NoBody)
          end.
Proof.
  assert (get combat_report "device" ≠ "") as H1 by by_evaluation.
  assert (get combat_report "task" ≠ "") as H2 by by_evaluation.
  assert (device_to_sender combat_plugin !! get combat_report "device"
          = Some "U1") as H3 by by_evaluation.
  assert ("U1" ≠ "") as H4 by by_evaluation.
  assert (bindings combat_plugin !! "U1"
          = Some (Binding "D1" "U1" "qq:private:U1")) as H5 by by_evaluation.
  assert (b_umo (Binding "D1" "U1" "qq:private:U1") ≠ "") as H6
    by by_evaluation.
  split; [done|].
  exact (response_follows_send combat_plugin combat_report io_send_fails "U1"
           (Binding "D1" "U1" "qq:private:U1") H1 H2 H3 H4 H5 H6).
Defined.

(** When every step of [_send_screenshot] completes, the deletion of the
    temporary file is created last, with the default delay of 30. *)
Lemma send_screenshot_schedules_release io umo payload message bytes :
  io_b64decode io = inr bytes → io_mkdir io = None → io_write io = None →
  io_send io = None →
  _send_screenshot io umo payload message
  = ([Mkdir temp_dir None; WriteFile (temp_file io) bytes None;
      SendMessage umo (Chain message (Some (temp_file io))) None;
      CreateTask (temp_file io) 30],
     inr tt).
Proof.
  intros Hd Hm Hw Hs. unfold _send_screenshot. by rewrite Hd, Hm, Hw, Hs.
Qed.

(** When the send raises, [_send_screenshot] is left before its last
    statement: the file has been written and no deletion is created. *)
Lemma send_screenshot_skips_release io umo payload message bytes e :
  io_b64decode io = inr bytes → io_mkdir io = None → io_write io = None →
  io_send io = Some e →
  _send_screenshot io umo payload message
  = ([Mkdir temp_dir None; WriteFile (temp_file io) bytes None;
      SendMessage umo (Chain message (Some (temp_file io))) (Some e)],
     inl e).
Proof.
  intros Hd Hm Hw Hs. unfold _send_screenshot. by rewrite Hd, Hm, Hw, Hs.
Qed.

(** The deferred deletion never raises: a file that is already gone is
    skipped, and a failing [unlink] is logged at debug level. *)
Lemma delete_temp_file_tolerant fs file_path unlink_r :
  result (snd (_delete_temp_file fs file_path unlink_r)) = inr tt
  ∧ (file_path ∉ fs → _delete_temp_file fs file_path unlink_r = (fs, ret tt))
  ∧ (file_path ∈ fs → unlink_r = None →
     file_path ∉ fst (_delete_temp_file fs file_path unlink_r)).
Proof.
  unfold _delete_temp_file. case_decide as Hin.
  - destruct unlink_r; (split; [done|]); (split; [done|]); [done|].
    intros _ _. cbn [fst]. apply not_elem_of_difference. right.
    by apply elem_of_singleton.
  - done.
Qed.

(** C8, at the failing input: device D1, bound to U1, reports the
    screenshot task with an image payload while the channel refuses the
    image message. The temporary file is written, the fallback text is
    sent and the request is answered 200, but no deletion of the file is
    ever created, so the file stays. *)
Theorem failed_send_leaks_temp_file :
  snd (_handle_report_status combat_plugin (Object image_report) io_send_fails)
  = ([Mkdir temp_dir None;
      WriteFile (temp_file io_send_fails) image_bytes None;
      SendMessage "qq:private:U1"
        (Chain (completion_message "done") (Some (temp_file io_send_fails)))
        (Some "send failed");
      Log Error "发送截图失败: send failed";
      SendMessage "qq:private:U1"
        (Chain (completion_message "done" +:+ NL
                +:+ "(截图发送失败: send failed)") None)
        None],
     inr (Response 200 NoBody))
  ∧ filter (λ f, is_create_task f = true)
      (effects (snd (_handle_report_status combat_plugin (Object image_report)
                       io_send_fails)))
    = [].
Proof. by vm_compute. Qed.

(** C9. Payload image threshold. For a device bound to an operator with a
    channel address, the notification of a well-formed [reportStatus] is
    chosen by the length of [payload] alone, with the threshold 100: a
    payload of at most 100 characters (an absent one counts as empty)
    gives exactly one text-only message; a longer one is handled as a
    base64 image by [_send_screenshot], and when it decodes and is written
    the first message sent carries the image file. Payloads of the same
    length are classified alike. *)
Theorem payload_threshold (self : MAAPlugin) (data : gmap string string)
    (io : report_io) (op : string) (b : binding) :
  get data "device" ≠ "" → get data "task" ≠ "" →
  device_to_sender self !! get data "device" = Some op → op ≠ "" →
  bindings self !! op = Some b → b_umo b ≠ "" →
  let payload := get data "payload" in
  let message := completion_message (get data "status") in
  let m := snd (_handle_report_status self (Object data) io) in
  ((String.length payload ≤ 100)%nat →
     effects m = [SendMessage (b_umo b) (Chain message None) (io_send io)])
  ∧ ((100 < String.length payload)%nat →
       effects m
       = effects (try_except (_send_screenshot io (b_umo b) payload message)
                             (screenshot_failed io (b_umo b) message))
       ∧ ∀ bytes,
           io_b64decode io = inr bytes → io_mkdir io = None →
           io_write io = None →
           ∃ rest,
             effects m
             = [Mkdir temp_dir None; WriteFile (temp_file io) bytes None;
                SendMessage (b_umo b) (Chain message (Some (temp_file io)))
                            (io_send io)] ++ rest)
  ∧ (∀ p1 p2 : string, String.length p1 = String.length p2 →
              is_screenshot p1 = is_screenshot p2).
Proof.
  intros Hdev Htask Hd Hop Hb Humo payload message m. subst m.
  rewrite (report_bound self data io op b) by done. cbn [snd].
  fold payload message.
  split; [|split].
  - intros Hle. rewrite bool_decide_eq_false_2 by lia.
    by destruct (io_send io).
  - intros Hgt. rewrite bool_decide_eq_true_2 by done.
    rewrite (proj1 (effects_then_ret _ _)). split; [done|].
    intros bytes Hdec Hmk Hwr. unfold _send_screenshot, screenshot_failed.
    rewrite Hdec, Hmk, Hwr.
    destruct (io_send io) as [e|]; [destruct (io_send_fallback io)|];
      cbn [effects fst bind ret perform emit try_except app];
      eexists; reflexivity.
  - intros p1 p2 Hlen. by rewrite !is_screenshot_length, Hlen.
Qed.

Lemma payload_threshold_witness :
  (get image_report "device" ≠ "" ∧ get image_report "task" ≠ ""
   ∧ device_to_sender combat_plugin !! get image_report "device" = Some "U1"
   ∧ "U1" ≠ ""
   ∧ bindings combat_plugin !! "U1" = Some (Binding "D1" "U1" "qq:private:U1")
   ∧ b_umo (Binding "D1" "U1" "qq:private:U1") ≠ "")
  ∧ effects (snd (_handle_report_status combat_plugin
                    (Object (report_request "D1" "id-2" "done" payload_100)) io_ok))
    = [SendMessage "qq:private:U1" (Chain (completion_message "done") None) None]
  ∧ ∃ rest,
      effects (snd (_handle_report_status combat_plugin (Object image_report)
                      io_ok))
      = [Mkdir temp_dir None; WriteFile (temp_file io_ok) image_bytes None;
         SendMessage "qq:private:U1"
           (Chain (completion_message "done") (Some (temp_file io_ok))) None]
        ++ rest.
Proof.
  assert (get image_report "device" ≠ "") as H1 by by_evaluation.
  assert (get image_report "task" ≠ "") as H2 by by_evaluation.
  assert (device_to_sender combat_plugin !! get image_report "device"
          = Some "U1") as H3 by by_evaluation.
  assert ("U1" ≠ "") as H4 by by_evaluation.
  assert (bindings combat_plugin !! "U1"
          = Some (Binding "D1" "U1" "qq:private:U1")) as H5 by by_evaluation.
  assert (b_umo (Binding "D1" "U1" "qq:private:U1") ≠ "") as H6
    by by_evaluation.
  split; [done|]. split; [by vm_compute|].
  destruct (payload_threshold combat_plugin image_report io_ok "U1"
              (Binding "D1" "U1" "qq:private:U1") H1 H2 H3 H4 H5 H6)
    as (_ & Hlong & _).
  destruct Hlong as [_ Himg]; [by_evaluation|].
  exact (Himg image_bytes eq_refl eq_refl eq_refl).
Defined.

(** * Further properties of the code *)

(** [step] is the state component of the handler the input names. *)
Lemma step_command self i : step self i = fst (command self i).
Proof.
  unfold step, handle, command. destruct i;
    match goal with |- context [let '(_, _) := ?h in _] => by destruct h end.
Qed.

(** ** Unbinding and binding again *)

Lemma unbind_effect (self : MAAPlugin) (event : AstrMessageEvent)
    (b : binding) :
  consistent self →
  bindings self !! get_sender_id event = Some b →
  snd (maa_unbind self event)
  = ([SaveData (delete (get_sender_id event) (bindings self));
      Yield (UnbindOk (b_device_id b))], inr tt)
  ∧ bindings (fst (maa_unbind self event))
    = delete (get_sender_id event) (bindings self)
  ∧ device_to_sender (fst (maa_unbind self event))
    = delete (b_device_id b) (device_to_sender self)
  ∧ queue (fst (maa_unbind self event)) (b_device_id b) = []
  ∧ executed (fst (maa_unbind self event)) (b_device_id b) = ∅
  ∧ (∀ d, d ≠ b_device_id b →
          queue (fst (maa_unbind self event)) d = queue self d
          ∧ executed (fst (maa_unbind self event)) d = executed self d)
  ∧ device_last_seen (fst (maa_unbind self event)) = device_last_seen self.
Proof.
  intros [H1 _] Hb. unfold maa_unbind. rewrite Hb.
  destruct (H1 _ _ Hb) as [-> _]. cbn [fst snd].
  split; [done|]. split; [done|]. split; [done|].
  unfold queue, executed; simpl. rewrite !lookup_delete_eq.
  split; [done|]. split; [done|]. split; [|done].
  intros d Hd. by rewrite !lookup_delete_ne.
Qed.

(** X1. [maa_unbind], on a consistent registry, for an operator who has a
    binding: it never raises; it removes the binding and the inverse entry,
    discards the queue and the executed set of that device only, keeps the
    presence table, and hands the new bindings to [_save_data]. *)
Theorem unbind_discards_device (self : MAAPlugin) (event : AstrMessageEvent)
    (b : binding) :
  consistent self →
  bindings self !! get_sender_id event = Some b →
  let dev := b_device_id b in
  let s' := fst (maa_unbind self event) in
  snd (maa_unbind self event)
  = ([SaveData (delete (get_sender_id event) (bindings self));
      Yield (UnbindOk dev)], inr tt)
  ∧ bindings s' = delete (get_sender_id event) (bindings self)
  ∧ device_to_sender s' = delete dev (device_to_sender self)
  ∧ queue s' dev = [] ∧ executed s' dev = ∅
  ∧ (∀ d, d ≠ dev → queue s' d = queue self d ∧ executed s' d = executed self d)
  ∧ device_last_seen s' = device_last_seen self.
Proof. intros Hc Hb dev s'. by apply unbind_effect. Qed.

Lemma unbind_discards_device_witness :
  consistent combat_plugin
  ∧ bindings combat_plugin !! get_sender_id U1
    = Some (Binding "D1" "U1" "qq:private:U1")
  ∧ queue combat_plugin "D1" ≠ []
  ∧ queue (fst (maa_unbind combat_plugin U1)) "D1" = [].
Proof.
  assert (consistent combat_plugin) as Hc by by_evaluation.
  assert (bindings combat_plugin !! get_sender_id U1
          = Some (Binding "D1" "U1" "qq:private:U1")) as Hb by by_evaluation.
  split; [exact Hc|]. split; [exact Hb|]. split; [by_evaluation|].
  exact (proj1 (proj2 (proj2 (proj2
           (unbind_discards_device combat_plugin U1 _ Hc Hb))))).
Defined.



(** ** Persistence *)

(** X3. Every input that changes [bindings] hands exactly the new bindings to
    [_save_data], after the change; an input that leaves [bindings] as it
    was (a rejected bind among them) saves nothing. *)
Theorem saved_on_every_mutation (self : MAAPlugin) (i : input) :
  saved (snd (handle self i))
  = if decide (bindings (step self i) = bindings self) then []
    else [bindings (step self i)].
Proof.
  unfold step. destruct i as [ev d|ev|ev ts|ev u|ev u|ev u|req now|req io];
    unfold handle.
  - unfold maa_bind.
    destruct (bindings self !! get_sender_id ev) as [old|] eqn:Hb;
      [by rewrite decide_True|].
    destruct (device_to_sender self !! d); [by rewrite decide_True|].
    cbn [fst snd]. rewrite decide_False; [done|]. simpl. intros Heq.
    assert (<[get_sender_id ev :=
              Binding d (get_sender_id ev) (unified_msg_origin ev)]>
              (bindings self) !! get_sender_id ev = None) as Hn
      by (by rewrite Heq).
    by rewrite lookup_insert_eq in Hn.
  - unfold maa_unbind.
    destruct (bindings self !! get_sender_id ev) as [old|] eqn:Hb;
      [|by rewrite decide_True].
    destruct (device_to_sender self !! b_device_id old);
      [|by rewrite decide_True].
    cbn [fst snd]. rewrite decide_False; [done|]. simpl. intros Heq.
    rewrite <- Heq, lookup_delete_eq in Hb. done.
  - assert (bindings (fst (maa_start self ev ts)) = bindings self) as Hsame.
    { unfold maa_start. destruct (bindings self !! get_sender_id ev) as [b|];
        [|done]. destruct ts as [| |items]; [done|done|]. cbn [fst].
      by destruct (add_all_frame items (b_device_id b) self) as (-> & _). }
    destruct (maa_start self ev ts) as [s m] eqn:Hm. cbn [fst snd] in *.
    rewrite decide_True by done. revert Hm. unfold maa_start.
    destruct (bindings self !! get_sender_id ev); [|by intros [= <- <-]].
    destruct ts; by intros [= <- <-].
  - unfold maa_screenshot, control_command.
    destruct (bindings self !! get_sender_id ev); by rewrite decide_True.
  - unfold maa_stop, control_command.
    destruct (bindings self !! get_sender_id ev); by rewrite decide_True.
  - unfold maa_heartbeat, control_command.
    destruct (bindings self !! get_sender_id ev); by rewrite decide_True.
  - unfold _handle_get_task. destruct req as [|value|data]; [by rewrite decide_True|by rewrite decide_True|].
    destruct (negb (truthy (get data "device"))); [by rewrite decide_True|].
    cbn [device_to_sender task_queues executed_tasks].
    destruct (negb (from_option truthy false _)); by rewrite decide_True.
  - unfold _handle_report_status. destruct req as [|value|data];
      [by rewrite decide_True..|].
    destruct (negb _ || negb _); [by rewrite decide_True|].
    cbn [fst snd]. rewrite decide_True by done.
    generalize (acknowledge self (get data "device") (get data "task")).
    intros s. unfold notify.
    destruct (device_to_sender s !! get data "device") as [sender|]; [|done].
    destruct (truthy sender); [|done].
    destruct (bindings s !! sender) as [b|]; [|done].
    destruct (truthy (b_umo b)); [|done].
    destruct (is_screenshot (get data "payload")).
    + unfold _send_screenshot, screenshot_failed.
      destruct io as [dec mk hex wr snd1 snd2].
      by destruct dec as [e|bytes], mk as [e1|], wr as [e2|], snd1 as [e3|],
        snd2 as [e4|].
    + by destruct (io_send io).
Qed.

(** ** Loading the snapshot *)

Lemma rebuild_index_snoc index items it :
  rebuild_index index (items ++ [it])
  = <[b_device_id it.2 := it.1]> (rebuild_index index items).
Proof. unfold rebuild_index. by rewrite foldl_snoc. Qed.

(** An entry of the rebuilt index comes from the index before or from an
    item of the file. *)
Lemma rebuild_index_origin items : ∀ index dev op,
  rebuild_index index items !! dev = Some op →
  index !! dev = Some op
  ∨ ∃ b, (op, b) ∈ items ∧ b_device_id b = dev.
Proof.
  induction items as [|it items IH] using rev_ind; intros index dev op;
    [by left|].
  rewrite rebuild_index_snoc, lookup_insert. case_decide as Hd.
  - intros [= <-]. right. exists it.2. split; [|done].
    apply elem_of_app. right. destruct it. by apply list_elem_of_singleton.
  - intros [H|(b & Hin & Hb)]%IH; [by left|]. right. exists b.
    split; [|done]. apply elem_of_app. by left.
Qed.

(** When no two items name the same device, each item is found under its
    device. *)
Lemma rebuild_index_item items : ∀ index op b,
  NoDup ((λ it, b_device_id it.2) <$> items) →
  (op, b) ∈ items → rebuild_index index items !! b_device_id b = Some op.
Proof.
  induction items as [|it items IH] using rev_ind; intros index op b Hnd Hin;
    [by apply elem_of_nil in Hin|].
  rewrite fmap_app in Hnd. apply NoDup_app in Hnd.
  destruct Hnd as (Hnd & Hdisj & _).
  rewrite rebuild_index_snoc.
  apply elem_of_app in Hin. destruct Hin as [Hin|Hin].
  - rewrite lookup_insert_ne; [by apply IH|]. intros Heq.
    apply (Hdisj (b_device_id b)).
    + apply list_elem_of_fmap. by exists (op, b).
    + rewrite <- Heq. simpl. apply elem_of_cons. by left.
  - apply list_elem_of_singleton in Hin. subst it. simpl.
    by rewrite lookup_insert_eq.
Qed.

Lemma same_key_same_item (items : list (string * binding)) k b1 b2 :
  NoDup items.*1 → (k, b1) ∈ items → (k, b2) ∈ items → b1 = b2.
Proof.
  intros Hnd H1 H2.
  apply (elem_of_list_to_map (M := gmap string)) in H1; [|done].
  apply (elem_of_list_to_map (M := gmap string)) in H2; [|done].
  congruence.
Qed.

(** X4. [__init__] on a snapshot file: the loaded registry is a bijection
    exactly when no device id occurs in two bindings of the file and every
    binding records the operator it is stored under. With a device shared
    by two operators in the file, the rebuilt inverse index keeps only one
    of them, and the registry is not consistent. *)
Theorem loaded_registry_consistent (auto : bool)
    (items : list (string * binding)) :
  NoDup items.*1 →
  consistent (__init__ auto (Snapshot items))
  ↔ NoDup ((λ it, b_device_id it.2) <$> items)
    ∧ Forall (λ it, b_user_id it.2 = it.1) items.
Proof.
  intros Hkeys. unfold __init__, _load_data, consistent. cbn [fst].
  cbn [bindings device_to_sender init]. split.
  - intros [H1 H2]. split.
    + apply NoDup_fmap_2_strong; [|by apply NoDup_fmap_1 in Hkeys].
      intros [op1 b1] [op2 b2] Hin1 Hin2 Hdev. simpl in Hdev.
      assert (op1 = op2) as <-.
      { apply (elem_of_list_to_map (M := gmap string)) in Hin1 as Hl1; [|done].
        apply (elem_of_list_to_map (M := gmap string)) in Hin2 as Hl2; [|done].
        destruct (H1 _ _ Hl1) as [Hd1 _], (H1 _ _ Hl2) as [Hd2 _].
        rewrite Hdev in Hd1. congruence. }
      f_equal. by apply (same_key_same_item items op1).
    + apply Forall_forall. intros [op b] Hin. simpl.
      apply (elem_of_list_to_map (M := gmap string)) in Hin; [|done].
      by destruct (H1 _ _ Hin).
  - intros [Hdevs Huser]. split.
    + intros op b Hl.
      apply (elem_of_list_to_map (M := gmap string)) in Hl; [|done].
      split; [by apply rebuild_index_item|].
      rewrite Forall_forall in Huser. by apply (Huser (op, b)).
    + intros dev op Hd. apply rebuild_index_origin in Hd.
      destruct Hd as [Hd|(b & Hin & Hb)]; [by rewrite lookup_empty in Hd|].
      apply (elem_of_list_to_map (M := gmap string)) in Hin; [|done].
      by rewrite Hin, <- Hb.
Qed.

Lemma loaded_registry_consistent_witness :
  NoDup [("U1", Binding "D1" "U1" "a"); ("U2", Binding "D1" "U2" "b")].*1
  ∧ ¬ consistent (__init__ true (Snapshot [("U1", Binding "D1" "U1" "a");
                                           ("U2", Binding "D1" "U2" "b")])).
Proof.
  assert (NoDup [("U1", Binding "D1" "U1" "a");
                 ("U2", Binding "D1" "U2" "b")].*1) as Hk by by_evaluation.
  split; [exact Hk|].
  intros Hc. apply (loaded_registry_consistent true _ Hk) in Hc.
  destruct Hc as [Hd _]. revert Hd. by_evaluation.
Defined.

(** X5. Restart round trip: a plugin started on the snapshot that [_save_data]
    wrote for a consistent registry (the items in any order) has the same
    bindings and the same inverse index again; queues, executed sets and
    presence start empty. *)
Theorem restart_restores_registry (self : MAAPlugin) (auto : bool)
    (items : list (string * binding)) :
  consistent self →
  NoDup items.*1 → list_to_map items = bindings self →
  let s' := __init__ auto (Snapshot items) in
  bindings s' = bindings self
  ∧ device_to_sender s' = device_to_sender self
  ∧ task_queues s' = ∅ ∧ executed_tasks s' = ∅ ∧ device_last_seen s' = ∅
  ∧ snd (_load_data (init auto) (Snapshot items))
    = Loaded (size (bindings self)).
Proof.
  intros [H1 H2] Hkeys Hmap s'. subst s'.
  unfold __init__, _load_data. cbn [fst snd]. simpl. rewrite Hmap.
  split; [done|]. split; [|done].
  assert (NoDup ((λ it, b_device_id it.2) <$> items)) as Hdevs.
  { apply NoDup_fmap_2_strong; [|by apply NoDup_fmap_1 in Hkeys].
    intros [op1 b1] [op2 b2] Hin1 Hin2 Hdev. simpl in Hdev.
    apply (elem_of_list_to_map (M := gmap string)) in Hin1 as Hl1; [|done].
    apply (elem_of_list_to_map (M := gmap string)) in Hin2 as Hl2; [|done].
    rewrite Hmap in Hl1, Hl2.
    destruct (H1 _ _ Hl1) as [Hd1 _], (H1 _ _ Hl2) as [Hd2 _].
    rewrite Hdev in Hd1. congruence. }
  apply map_eq. intros dev.
  destruct (device_to_sender self !! dev) as [op|] eqn:Hd.
  - pose proof (H2 _ _ Hd) as Hb. apply fmap_Some in Hb.
    destruct Hb as (b & Hb & ->).
    rewrite <- Hmap in Hb.
    apply (elem_of_list_to_map (M := gmap string)) in Hb; [|done].
    by apply rebuild_index_item.
  - destruct (rebuild_index ∅ items !! dev) as [op|] eqn:Hr; [|done].
    apply rebuild_index_origin in Hr.
    destruct Hr as [Hr|(b & Hin & Hb)]; [by rewrite lookup_empty in Hr|].
    apply (elem_of_list_to_map (M := gmap string)) in Hin; [|done].
    rewrite Hmap in Hin. destruct (H1 _ _ Hin) as [Hd' _]. congruence.
Qed.

Lemma restart_restores_registry_witness :
  consistent combat_plugin
  ∧ NoDup (map_to_list (bindings combat_plugin)).*1
  ∧ device_to_sender (__init__ false
                        (Snapshot (map_to_list (bindings combat_plugin))))
    = device_to_sender combat_plugin.
Proof.
  assert (consistent combat_plugin) as Hc by by_evaluation.
  assert (NoDup (map_to_list (bindings combat_plugin)).*1) as Hk
    by apply NoDup_fst_map_to_list.
  split; [exact Hc|]. split; [exact Hk|].
  exact (proj1 (proj2 (restart_restores_registry combat_plugin false _ Hc Hk
                         (list_to_map_to_list _)))).
Defined.

(** ** The handlers at their edges *)

Lemma get_task_frame (self : MAAPlugin) (req : request) (now : Z) :
  auto_screenshot (fst (_handle_get_task self req now)) = auto_screenshot self
  ∧ bindings (fst (_handle_get_task self req now)) = bindings self
  ∧ device_to_sender (fst (_handle_get_task self req now))
    = device_to_sender self
  ∧ task_queues (fst (_handle_get_task self req now)) = task_queues self
  ∧ executed_tasks (fst (_handle_get_task self req now)) = executed_tasks self
  ∧ device_last_seen (fst (_handle_get_task self req now))
    = match req with
      | Object data =>
        if truthy (get data "device")
        then <[get data "device" := now]> (device_last_seen self)
        else device_last_seen self
      | _ => device_last_seen self
      end.
Proof.
  unfold _handle_get_task. destruct req as [|value|data]; [done|done|].
  destruct (truthy (get data "device")); [|done]. cbn [negb].
  cbn [device_to_sender task_queues executed_tasks].
  by destruct (negb (from_option truthy false _)).
Qed.

(** X6. A poll consumes nothing: whatever the request, [_handle_get_task]
    leaves bindings, inverse index, queues and executed sets as they were,
    so the next poll of any device is answered the same; its only write is
    the presence entry of a non-empty device id, and that it writes for
    bound and unbound devices alike. *)
Theorem poll_is_read_only (self : MAAPlugin) (req : request) (now : Z) :
  let s' := fst (_handle_get_task self req now) in
  auto_screenshot s' = auto_screenshot self
  ∧ bindings s' = bindings self
  ∧ device_to_sender s' = device_to_sender self
  ∧ task_queues s' = task_queues self
  ∧ executed_tasks s' = executed_tasks self
  ∧ device_last_seen s'
    = match req with
      | Object data =>
        if truthy (get data "device")
        then <[get data "device" := now]> (device_last_seen self)
        else device_last_seen self
      | _ => device_last_seen self
      end
  ∧ ∀ dev user later, poll s' dev user later = poll self dev user later.
Proof.
  intros s'. destruct (get_task_frame self req now) as (Ha & Hb & Hd & Hq & He & Hl).
  repeat (split; [done|]). subst s'.
  intros dev user later. unfold poll.
  generalize (fst (_handle_get_task self req now)) Hd Hq He.
  intros s Hd' Hq' He'. unfold _handle_get_task.
  destruct (negb (truthy (get (get_request dev user) "device"))); [done|].
  cbn [device_to_sender task_queues executed_tasks].
  rewrite Hd', Hq', He'.
  by destruct (negb (from_option truthy false _)).
Qed.

(** X7. A well-formed report of a device nobody has bound is answered 200
    without any notification or other effect, and the acknowledgement is
    recorded all the same: the id enters an executed set of that device,
    and a later bind of the device keeps that set. *)
Theorem unbound_report_is_recorded (self : MAAPlugin)
    (data : gmap string string) (io : report_io) (event : AstrMessageEvent) :
  get data "device" ≠ "" → get data "task" ≠ "" →
  device_to_sender self !! get data "device" = None →
  let s' := fst (_handle_report_status self (Object data) io) in
  snd (_handle_report_status self (Object data) io)
  = ([], inr (Response 200 NoBody))
  ∧ bindings s' = bindings self
  ∧ executed s' (get data "device")
    = executed self (get data "device") ∪ {[get data "task"]}
  ∧ get data "task"
    ∈ executed (step s' (Bind event (get data "device"))) (get data "device").
Proof.
  intros Hdev Htask Hnone s'. subst s'.
  unfold _handle_report_status, truthy.
  rewrite !bool_decide_eq_true_2 by done. cbn [negb orb fst snd].
  split.
  - unfold notify.
    destruct (acknowledge_frame self (get data "device") (get data "task"))
      as (_ & _ & -> & _).
    by rewrite Hnone.
  - split; [done|]. rewrite executed_acknowledge, decide_True by done.
    split; [done|].
    rewrite step_command. cbn [command]. unfold maa_bind.
    assert (get data "task"
            ∈ executed (acknowledge self (get data "device") (get data "task"))
                       (get data "device")) as Hin.
    { rewrite executed_acknowledge, decide_True by done.
      apply elem_of_union. right. by apply elem_of_singleton. }
    destruct (bindings _ !! get_sender_id event); [done|].
    by destruct (device_to_sender _ !! get data "device").
Qed.

Lemma unbound_report_is_recorded_witness :
  get (report_request "D7" "id-x" "done" "") "device" ≠ ""
  ∧ get (report_request "D7" "id-x" "done" "") "task" ≠ ""
  ∧ device_to_sender combat_plugin
      !! get (report_request "D7" "id-x" "done" "") "device" = None
  ∧ snd (_handle_report_status combat_plugin
           (Object (report_request "D7" "id-x" "done" "")) io_ok)
    = ([], inr (Response 200 NoBody)).
Proof.
  assert (get (report_request "D7" "id-x" "done" "") "device" ≠ "") as H1
    by by_evaluation.
  assert (get (report_request "D7" "id-x" "done" "") "task" ≠ "") as H2
    by by_evaluation.
  assert (device_to_sender combat_plugin
            !! get (report_request "D7" "id-x" "done" "") "device" = None)
    as H3 by by_evaluation.
  split; [exact H1|]. split; [exact H2|]. split; [exact H3|].
  exact (proj1 (unbound_report_is_recorded combat_plugin _ io_ok U1 H1 H2 H3)).
Defined.

(** X8. A failed screenshot is never dropped silently. For a well-formed report
    of a bound device with a payload over the threshold, when
    [_send_screenshot] is left by an exception [e] (decoding, creating the
    directory, writing or sending), the handler logs the error and sends
    the completion text annotated with [e]; the response then follows that
    fallback send. When decoding or creating the directory is what failed,
    no file has been written. *)
Theorem screenshot_failure_falls_back (self : MAAPlugin)
    (data : gmap string string) (io : report_io) (op : string) (b : binding)
    (e : string) :
  get data "device" ≠ "" → get data "task" ≠ "" →
  device_to_sender self !! get data "device" = Some op → op ≠ "" →
  bindings self !! op = Some b → b_umo b ≠ "" →
  (100 < String.length (get data "payload"))%nat →
  let message := completion_message (get data "status") in
  let attempt := _send_screenshot io (b_umo b) (get data "payload") message in
  result attempt = inl e →
  snd (_handle_report_status self (Object data) io)
  = (effects attempt
     ++ [Log Error ("发送截图失败: " +:+ e);
         SendMessage (b_umo b)
           (Chain (message +:+ NL +:+ "(截图发送失败: " +:+ e +:+ ")") None)
           (io_send_fallback io)],
     match io_send_fallback io with
     | None => inr (Response 200 NoBody)
     | Some e' => inl e'
     end)
  ∧ (io_b64decode io = inl e → effects attempt = [])
  ∧ (∀ bytes, io_b64decode io = inr bytes → io_mkdir io = Some e →
     effects attempt = [Mkdir temp_dir (Some e)]).
Proof.
  intros Hdev Htask Hd Hop Hb Humo Hlen message attempt Hres.
  rewrite (report_bound self data io op b) by done. cbn [snd].
  rewrite bool_decide_eq_true_2 by done.
  fold message. fold attempt.
  split; [|split].
  - destruct attempt as [fs [e0|[]]] eqn:Ha; [|done].
    injection Hres as ->. unfold screenshot_failed.
    destruct (io_send_fallback io); cbn; by rewrite <- ?app_assoc.
  - intros Hdec. subst attempt. unfold _send_screenshot. by rewrite Hdec.
  - intros bytes Hdec Hmk. subst attempt. unfold _send_screenshot.
    by rewrite Hdec, Hmk.
Qed.

Lemma screenshot_failure_falls_back_witness :
  (get image_report "device" ≠ "" ∧ get image_report "task" ≠ ""
   ∧ device_to_sender combat_plugin !! get image_report "device" = Some "U1"
   ∧ "U1" ≠ ""
   ∧ bindings combat_plugin !! "U1" = Some (Binding "D1" "U1" "qq:private:U1")
   ∧ b_umo (Binding "D1" "U1" "qq:private:U1") ≠ ""
   ∧ (100 < String.length (get image_report "payload"))%nat)
  ∧ result (snd (_handle_report_status combat_plugin (Object image_report)
                   (ReportIO (inl "Incorrect padding") None "" None None None)))
    = inr (Response 200 NoBody).
Proof.
  assert (get image_report "device" ≠ "") as H1 by by_evaluation.
  assert (get image_report "task" ≠ "") as H2 by by_evaluation.
  assert (device_to_sender combat_plugin !! get image_report "device"
          = Some "U1") as H3 by by_evaluation.
  assert ("U1" ≠ "") as H4 by by_evaluation.
  assert (bindings combat_plugin !! "U1"
          = Some (Binding "D1" "U1" "qq:private:U1")) as H5 by by_evaluation.
  assert (b_umo (Binding "D1" "U1" "qq:private:U1") ≠ "") as H6
    by by_evaluation.
  assert (100 < String.length (get image_report "payload"))%nat as H7
    by by_evaluation.
  split; [done|].
  destruct (screenshot_failure_falls_back combat_plugin image_report
              (ReportIO (inl "Incorrect padding") None "" None None None)
              "U1" (Binding "D1" "U1" "qq:private:U1") "Incorrect padding"
              H1 H2 H3 H4 H5 H6 H7 eq_refl) as [Heq _].
  by rewrite Heq.
Defined.

(** X9. The deferred deletion is safe: [_delete_temp_file] never raises and
    never touches a path other than its own; a file that is already gone
    is skipped without any effect, a failing [unlink] leaves the file and
    is only logged at debug level, and otherwise the file is removed. *)
Theorem deferred_delete_is_safe (fs : gset string) (file_path : string)
    (unlink_r : io_result) :
  let fs' := fst (_delete_temp_file fs file_path unlink_r) in
  let m := snd (_delete_temp_file fs file_path unlink_r) in
  result m = inr tt
  ∧ (∀ p, p ≠ file_path → p ∈ fs' ↔ p ∈ fs)
  ∧ (file_path ∈ fs' ↔ file_path ∈ fs ∧ unlink_r ≠ None)
  ∧ effects m
    = match unlink_r with
      | Some e =>
        if decide (file_path ∈ fs)
        then [Log Debug ("删除临时文件失败: " +:+ e)] else []
      | None => []
      end.
Proof.
  unfold _delete_temp_file. case_decide as Hin.
  - destruct unlink_r as [e|]; cbn [fst snd].
    + split; [done|]. split; [done|]. split; [|done].
      split; [by intros ?|by intros [? _]].
    + split; [done|]. split; [|split; [|done]].
      * intros p Hp. rewrite elem_of_difference, elem_of_singleton. tauto.
      * rewrite elem_of_difference, elem_of_singleton.
        split; intros [_ H]; by destruct H.
  - cbn [fst snd]. split; [done|]. split; [done|].
    split; [tauto|]. by destruct unlink_r.
Qed.

(** ** Starting tasks *)

Lemma queue_add_all items : ∀ d self d',
  queue (add_all d self items) d'
  = if decide (d = d')
    then queue self d
         ++ (items ≫= λ it, appended self (si_type it) ""
                                      (si_uuid1 it) (si_uuid2 it))
    else queue self d'.
Proof.
  induction items as [|it items IH]; intros d self d'.
  - cbn. case_decide; [|done]. subst. by rewrite app_nil_r.
  - unfold add_all in *. cbn [foldl]. rewrite IH, !queue_add_task.
    case_decide; [|done]. rewrite decide_True by done.
    cbn [mbind list_bind]. by rewrite <- app_assoc.
Qed.

Lemma start_resolved (self : MAAPlugin) (event : AstrMessageEvent)
    (items : list start_item) (b : binding) :
  bindings self !! get_sender_id event = Some b →
  queue (fst (maa_start self event (Resolved items))) (b_device_id b)
  = queue self (b_device_id b)
    ++ (items ≫= λ it, appended self (si_type it) ""
                                 (si_uuid1 it) (si_uuid2 it))
  ∧ (∀ d, d ≠ b_device_id b →
          queue (fst (maa_start self event (Resolved items))) d = queue self d)
  ∧ executed_tasks (fst (maa_start self event (Resolved items)))
    = executed_tasks self
  ∧ bindings (fst (maa_start self event (Resolved items))) = bindings self
  ∧ device_to_sender (fst (maa_start self event (Resolved items)))
    = device_to_sender self
  ∧ snd (maa_start self event (Resolved items))
    = emit (Yield (TasksAdded ((λ it, (si_name it, si_type it)) <$> items))).
Proof.
  intros Hb. unfold maa_start. rewrite Hb. cbn [fst snd].
  destruct (add_all_frame items (b_device_id b) self) as (-> & -> & -> & _).
  split; [by rewrite queue_add_all, decide_True|].
  split; [|done]. intros d Hd. by rewrite queue_add_all, decide_False.
Qed.

(** X10. [maa_start] with a resolved task list, for an operator who has a
    binding: the tasks are appended to the queue of the operator's device
    in the order of the list, each with its screenshot task right behind it
    when one is due; the other queues, the executed sets and the registry
    stay as they were, and the reply lists the names with their types. *)
Theorem start_appends_in_order (self : MAAPlugin) (event : AstrMessageEvent)
    (items : list start_item) (b : binding) :
  bindings self !! get_sender_id event = Some b →
  let dev := b_device_id b in
  let s' := fst (maa_start self event (Resolved items)) in
  queue s' dev
  = queue self dev
    ++ (items ≫= λ it, appended self (si_type it) ""
                                 (si_uuid1 it) (si_uuid2 it))
  ∧ (∀ d, d ≠ dev → queue s' d = queue self d)
  ∧ executed_tasks s' = executed_tasks self
  ∧ bindings s' = bindings self
  ∧ device_to_sender s' = device_to_sender self
  ∧ snd (maa_start self event (Resolved items))
    = emit (Yield (TasksAdded ((λ it, (si_name it, si_type it)) <$> items))).
Proof. intros Hb dev s'. by apply start_resolved. Qed.

Lemma start_appends_in_order_witness :
  bindings bound_plugin !! get_sender_id U1
  = Some (Binding "D1" "U1" "qq:private:U1")
  ∧ queue (fst (maa_start bound_plugin U1
                  (Resolved [StartItem "wakeup" "LinkStart-WakeUp" "a" "b";
                             StartItem "combat" "LinkStart-Combat" "c" "d"])))
          "D1"
    = [Task "a" "LinkStart-WakeUp" None; Task "b" "CaptureImage" None;
       Task "c" "LinkStart-Combat" None; Task "d" "CaptureImage" None].
Proof.
  assert (bindings bound_plugin !! get_sender_id U1
          = Some (Binding "D1" "U1" "qq:private:U1")) as Hb by by_evaluation.
  split; [exact Hb|].
  rewrite (proj1 (start_appends_in_order bound_plugin U1 _ _ Hb)).
  by vm_compute.
Defined.

(** The table maps every alias to a non-empty type outside the set that is
    exempt from the automatic screenshot. *)
Lemma alias_types key task_type :
  TASK_ALIASES !! key = Some task_type →
  truthy task_type = true ∧ exempt task_type = false.
Proof.
  assert (map_Forall (λ _ ty, truthy ty = true ∧ exempt ty = false)
                     TASK_ALIASES) as H by by_evaluation.
  apply H.
Qed.

Lemma resolve_types lower name task_type :
  resolve lower name = Some task_type →
  truthy task_type = true ∧ exempt task_type = false.
Proof.
  unfold resolve.
  destruct (TASK_ALIASES !! lower name) as [ty|] eqn:Hl.
  - destruct (alias_types _ _ Hl) as [Ht He]. rewrite Ht.
    by intros [= <-].
  - apply alias_types.
Qed.

Lemma resolve_all_unknown lower names unknown :
  resolve_all lower names = inl unknown →
  ∃ before after,
    names = before ++ unknown :: after
    ∧ Forall (λ n, is_Some (resolve lower n)) before
    ∧ resolve lower unknown = None.
Proof.
  revert unknown. induction names as [|n names IH]; intros unknown; [done|].
  cbn [resolve_all].
  destruct (resolve lower n) as [ty|] eqn:Hr.
  - destruct (resolve_types _ _ _ Hr) as [-> _].
    destruct (resolve_all lower names) as [u|l]; [|done].
    intros [= <-]. destruct (IH u eq_refl) as (before & after & -> & Hb & Hn).
    exists (n :: before), after. split; [done|]. split; [|done].
    apply Forall_cons. split; [by rewrite Hr|done].
  - intros [= <-]. exists [], names. by repeat split.
Qed.

Lemma resolve_all_known lower names :
  Forall (λ n, is_Some (resolve lower n)) names →
  resolve_all lower names
  = inr ((λ n, (n, default "" (resolve lower n))) <$> names).
Proof.
  induction 1 as [|n names [ty Hr] _ IH]; [done|]. cbn [resolve_all].
  rewrite Hr. destruct (resolve_types _ _ _ Hr) as [-> _].
  rewrite IH. cbn [fmap list_fmap]. by rewrite Hr.
Qed.

Lemma resolve_all_some_unknown lower names name :
  name ∈ names → resolve lower name = None →
  ∃ unknown, resolve_all lower names = inl unknown.
Proof.
  intros Hin Hn. induction names as [|n names IH];
    [by apply elem_of_nil in Hin|].
  cbn [resolve_all]. destruct (resolve lower n) as [ty|] eqn:Hr; [|eauto].
  destruct (resolve_types _ _ _ Hr) as [-> _].
  apply elem_of_cons in Hin. destruct Hin as [->|Hin]; [congruence|].
  destruct (IH Hin) as [u ->]. eauto.
Qed.

(** X11. [maa_start] is all or nothing: when one of the names the operator
    typed is not an alias nothing is enqueued, also not the valid names that
    come before it, and the state is the one before; an operator with a
    binding gets the reply that names the first unknown name, the one all
    of whose predecessors in the list are aliases. *)
Theorem start_all_or_nothing (strip lower : string → string)
    (self : MAAPlugin) (event : AstrMessageEvent) (tasks : string)
    (uuids : nat → string * string) (name : string) :
  name ∈ task_names strip tasks → resolve lower name = None →
  fst (maa_start_command strip lower self event tasks uuids) = self
  ∧ (is_Some (bindings self !! get_sender_id event) →
     ∃ unknown before after,
       snd (maa_start_command strip lower self event tasks uuids)
       = emit (Yield (UnknownTask unknown))
       ∧ task_names strip tasks = before ++ unknown :: after
       ∧ Forall (λ n, is_Some (resolve lower n)) before
       ∧ resolve lower unknown = None).
Proof.
  intros Hin Hn.
  destruct (resolve_all_some_unknown lower _ _ Hin Hn) as [u Hu].
  destruct (resolve_all_unknown lower _ _ Hu) as (before & after & Hsplit & Hb & Hun).
  unfold maa_start_command, parse_start, maa_start.
  destruct (task_names strip tasks) as [|n names] eqn:Hnames;
    [by apply elem_of_nil in Hin|].
  rewrite Hu.
  destruct (bindings self !! get_sender_id event) as [b|].
  - split; [done|]. intros _. by exists u, before, after.
  - split; [done|]. by intros [? [=]].
Qed.

Lemma start_all_or_nothing_witness :
  "bar" ∈ task_names ascii_strip "Combat, foo ,bar"
  ∧ resolve ascii_lower "bar" = None
  ∧ fst (maa_start_command ascii_strip ascii_lower bound_plugin U1
           "Combat, foo ,bar" (λ _, ("a", "b")))
    = bound_plugin
  ∧ snd (maa_start_command ascii_strip ascii_lower bound_plugin U1
           "Combat, foo ,bar" (λ _, ("a", "b")))
    = emit (Yield (UnknownTask "foo")).
Proof.
  assert ("bar" ∈ task_names ascii_strip "Combat, foo ,bar") as H1
    by by_evaluation.
  assert (resolve ascii_lower "bar" = None) as H2 by by_evaluation.
  split; [exact H1|]. split; [exact H2|].
  split; [|by vm_compute].
  exact (proj1 (start_all_or_nothing ascii_strip ascii_lower bound_plugin U1
                  _ (λ _, ("a", "b")) "bar" H1 H2)).
Defined.

Lemma appended_items (self : MAAPlugin) (pairs : list (string * string)) :
  ∀ uuids : nat → string * string,
  Forall (λ nt, exempt nt.2 = false) pairs →
  (imap (λ k nt, StartItem nt.1 nt.2 (uuids k).1 (uuids k).2) pairs
     ≫= λ it, appended self (si_type it) "" (si_uuid1 it) (si_uuid2 it))
  = concat (imap (λ k nt,
                    Task (uuids k).1 nt.2 None
                    :: if auto_screenshot self
                       then [Task (uuids k).2 "CaptureImage" None] else [])
                 pairs).
Proof.
  induction pairs as [|nt pairs IH]; intros uuids Hex; [done|].
  apply Forall_cons in Hex. destruct Hex as [He Hex].
  cbn [imap mbind list_bind concat]. f_equal.
  - unfold appended. cbn [si_type si_uuid1 si_uuid2]. rewrite He.
    by rewrite andb_true_r.
  - exact (IH (uuids ∘ S) Hex).
Qed.

Lemma length_concat_imap {A B} (f : nat → A → list B) (c : nat) (l : list A) :
  (∀ k x, length (f k x) = c) → length (concat (imap f l)) = c * length l.
Proof.
  revert f. induction l as [|x l IH]; intros f Hf; cbn [imap concat length].
  - lia.
  - rewrite length_app, Hf, IH; [lia|]. intros k y. apply Hf.
Qed.

(** X12. [maa_start] on the text an operator with a binding typed, when there
    is at least one name and every name is an alias: for each name, in the
    order typed, one task of the aliased type without parameters is appended
    to the queue of the operator's device, followed by a CaptureImage task
    when the auto-screenshot option is on (no aliased type is exempt), so
    the queue grows by one or by two tasks per name. *)
Theorem start_command_enqueues (strip lower : string → string)
    (self : MAAPlugin) (event : AstrMessageEvent) (tasks : string)
    (uuids : nat → string * string) (b : binding) :
  bindings self !! get_sender_id event = Some b →
  task_names strip tasks ≠ [] →
  Forall (λ n, is_Some (resolve lower n)) (task_names strip tasks) →
  let names := task_names strip tasks in
  let s' := fst (maa_start_command strip lower self event tasks uuids) in
  queue s' (b_device_id b)
  = queue self (b_device_id b)
    ++ concat (imap (λ k n,
                       Task (uuids k).1 (default "" (resolve lower n)) None
                       :: if auto_screenshot self
                          then [Task (uuids k).2 "CaptureImage" None] else [])
                    names)
  ∧ length (queue s' (b_device_id b))
    = length (queue self (b_device_id b))
      + (if auto_screenshot self then 2 else 1) * length names.
Proof.
  intros Hb Hne Hall names s'.
  assert (queue s' (b_device_id b)
          = queue self (b_device_id b)
            ++ concat (imap (λ k n,
                 Task (uuids k).1 (default "" (resolve lower n)) None
                 :: if auto_screenshot self
                    then [Task (uuids k).2 "CaptureImage" None] else [])
                 names)) as Hq.
  { subst s' names. unfold maa_start_command, parse_start.
    destruct (task_names strip tasks) as [|n ns] eqn:Hn; [done|].
    rewrite (resolve_all_known lower _ Hall).
    rewrite (proj1 (start_resolved self event _ b Hb)). f_equal.
    rewrite appended_items.
    - by rewrite imap_fmap.
    - apply Forall_fmap. eapply Forall_impl; [exact Hall|].
      intros x [ty Hty]. simpl. rewrite Hty. simpl.
      by destruct (resolve_types _ _ _ Hty). }
  split; [done|]. rewrite Hq, length_app. f_equal.
  apply length_concat_imap. intros k n. by destruct (auto_screenshot self).
Qed.

Lemma start_command_enqueues_witness :
  bindings bound_plugin !! get_sender_id U1
  = Some (Binding "D1" "U1" "qq:private:U1")
  ∧ task_names ascii_strip " Combat , 公招,,ALL" ≠ []
  ∧ Forall (λ n, is_Some (resolve ascii_lower n))
           (task_names ascii_strip " Combat , 公招,,ALL")
  ∧ length (queue (fst (maa_start_command ascii_strip ascii_lower bound_plugin
                          U1 " Combat , 公招,,ALL" (λ _, ("a", "b")))) "D1")
    = 6.
Proof.
  assert (bindings bound_plugin !! get_sender_id U1
          = Some (Binding "D1" "U1" "qq:private:U1")) as Hb by by_evaluation.
  assert (task_names ascii_strip " Combat , 公招,,ALL" ≠ []) as Hne
    by by_evaluation.
  assert (Forall (λ n, is_Some (resolve ascii_lower n))
                 (task_names ascii_strip " Combat , 公招,,ALL")) as Hall
    by by_evaluation.
  split; [exact Hb|]. split; [exact Hne|]. split; [exact Hall|].
  etransitivity;
    [exact (proj2 (start_command_enqueues ascii_strip ascii_lower bound_plugin
                     U1 _ (λ _, ("a", "b")) _ Hb Hne Hall))|].
  by vm_compute.
Defined.

(** X13. [maa_linkstart] is [maa_start] on "ALL": for a binding operator it
    appends the single task of type LinkStart, with its screenshot task
    when the option is on. ([str.strip] keeps "ALL" and [str.lower] turns
    it into "all".) *)
Theorem linkstart_is_start_all (strip lower : string → string)
    (self : MAAPlugin) (event : AstrMessageEvent)
    (uuids : nat → string * string) (b : binding) :
  strip "ALL" = "ALL" → lower "ALL" = "all" →
  bindings self !! get_sender_id event = Some b →
  maa_linkstart strip lower self event uuids
  = maa_start self event
      (Resolved [StartItem "ALL" "LinkStart" (uuids 0).1 (uuids 0).2])
  ∧ queue (fst (maa_linkstart strip lower self event uuids)) (b_device_id b)
    = queue self (b_device_id b)
      ++ Task (uuids 0).1 "LinkStart" None
         :: if auto_screenshot self
            then [Task (uuids 0).2 "CaptureImage" None] else [].
Proof.
  intros Hs Hl Hb.
  assert (maa_linkstart strip lower self event uuids
          = maa_start self event
              (Resolved [StartItem "ALL" "LinkStart" (uuids 0).1 (uuids 0).2]))
    as Heq.
  { unfold maa_linkstart, maa_start_command, parse_start, task_names.
    replace (split_comma "ALL") with ["ALL"] by (by vm_compute).
    cbn [fmap list_fmap]. rewrite Hs.
    replace (filter (λ t, truthy t = true) ["ALL"]) with ["ALL"]
      by (by vm_compute).
    cbn [resolve_all]. unfold resolve. rewrite Hl.
    replace (TASK_ALIASES !! "all") with (Some "LinkStart") by (by vm_compute).
    replace (truthy "LinkStart") with true by (by vm_compute). done. }
  split; [done|]. rewrite Heq.
  rewrite (proj1 (start_resolved self event _ b Hb)).
  cbn [mbind list_bind]. rewrite app_nil_r. unfold appended. cbn [si_type].
  replace (exempt "LinkStart") with false by (by vm_compute).
  by rewrite andb_true_r.
Qed.

Lemma linkstart_is_start_all_witness :
  ascii_strip "ALL" = "ALL" ∧ ascii_lower "ALL" = "all"
  ∧ bindings bound_plugin !! get_sender_id U1
    = Some (Binding "D1" "U1" "qq:private:U1")
  ∧ queue (fst (maa_linkstart ascii_strip ascii_lower bound_plugin U1
                  (λ _, ("a", "b")))) "D1"
    = [Task "a" "LinkStart" None; Task "b" "CaptureImage" None].
Proof.
  assert (ascii_strip "ALL" = "ALL") as Hs by by_evaluation.
  assert (ascii_lower "ALL" = "all") as Hl by by_evaluation.
  assert (bindings bound_plugin !! get_sender_id U1
          = Some (Binding "D1" "U1" "qq:private:U1")) as Hb by by_evaluation.
  split; [exact Hs|]. split; [exact Hl|]. split; [exact Hb|].
  etransitivity;
    [exact (proj2 (linkstart_is_start_all ascii_strip ascii_lower bound_plugin
                     U1 (λ _, ("a", "b")) _ Hs Hl Hb))|].
  by vm_compute.
Defined.

(** ** Priority, and who can touch what *)

Lemma poll_bound self dev op user now :
  dev ≠ "" → op ≠ "" → device_to_sender self !! dev = Some op →
  poll self dev user now
  = inr (Response 200 (Tasks (pending (queue self dev) (executed self dev)))).
Proof.
  intros Hdev Hop Hd. unfold poll, _handle_get_task.
  assert (get (get_request dev user) "device" = dev) as ->.
  { unfold get, get_request. by rewrite lookup_insert_eq. }
  unfold truthy at 1. rewrite bool_decide_eq_true_2 by done.
  cbn [negb device_to_sender task_queues executed_tasks].
  rewrite Hd. cbn [from_option]. unfold truthy.
  by rewrite bool_decide_eq_true_2 by done.
Qed.

(** X14. Head insertion gives priority: after [maa_screenshot], [maa_stop] or
    [maa_heartbeat] of an operator with a binding, the next poll of the
    device is answered with the new control task first, followed by
    exactly the tasks, in the order, that a poll would have received
    before the command. *)
Theorem control_task_polled_first (self : MAAPlugin)
    (event : AstrMessageEvent) (uuid : string) (b : binding)
    (task_type : string) (done : reply) (user : string) (now : Z) :
  consistent self →
  bindings self !! get_sender_id event = Some b →
  b_device_id b ≠ "" → get_sender_id event ≠ "" →
  uuid ∉ executed self (b_device_id b) →
  ∃ ts,
    poll self (b_device_id b) user now = inr (Response 200 (Tasks ts))
    ∧ poll (fst (control_command task_type done self event uuid))
           (b_device_id b) user now
      = inr (Response 200 (Tasks (Task uuid task_type None :: ts))).
Proof.
  intros [H1 _] Hb Hdev Hop Hfresh. destruct (H1 _ _ Hb) as [Hd _].
  exists (pending (queue self (b_device_id b)) (executed self (b_device_id b))).
  split; [by apply (poll_bound self _ (get_sender_id event))|].
  rewrite (poll_bound _ _ (get_sender_id event)); [|done|done|].
  - unfold control_command. rewrite Hb. cbn [fst].
    rewrite queue_insert_head, decide_True by done.
    unfold pending. rewrite filter_cons_True; done.
  - unfold control_command. by rewrite Hb.
Qed.

Lemma control_task_polled_first_witness :
  consistent combat_plugin
  ∧ bindings combat_plugin !! get_sender_id U1
    = Some (Binding "D1" "U1" "qq:private:U1")
  ∧ poll (fst (maa_stop combat_plugin U1 "id-9")) "D1" "U1" 4
    = inr (Response 200 (Tasks [Task "id-9" "StopTask" None;
                                Task "id-1" "LinkStart-Combat" None;
                                Task "id-2" "CaptureImage" None])).
Proof.
  assert (consistent combat_plugin) as Hc by by_evaluation.
  assert (bindings combat_plugin !! get_sender_id U1
          = Some (Binding "D1" "U1" "qq:private:U1")) as Hb by by_evaluation.
  split; [exact Hc|]. split; [exact Hb|].
  destruct (control_task_polled_first combat_plugin U1 "id-9" _ "StopTask"
              StopQueued "U1" 4 Hc Hb) as (ts & Hbefore & Hafter);
    [by_evaluation..|].
  etransitivity; [exact Hafter|].
  assert (ts = [Task "id-1" "LinkStart-Combat" None;
                Task "id-2" "CaptureImage" None]) as ->; [|done].
  assert (poll combat_plugin "D1" "U1" 4
          = inr (Response 200 (Tasks [Task "id-1" "LinkStart-Combat" None;
                                      Task "id-2" "CaptureImage" None])))
    as Hp by (by vm_compute).
  cbn [b_device_id] in Hbefore. rewrite Hp in Hbefore. by injection Hbefore.
Defined.

(** X15. An operator without a binding can do nothing but bind: unbind, start,
    screenshot, stop and heartbeat leave the whole state as it was and only
    yield the reply that asks for a binding, and status has nothing to
    report. *)
Theorem unbound_operator_changes_nothing (self : MAAPlugin)
    (event : AstrMessageEvent) (tasks : start_request) (uuid : string)
    (now : Z) :
  bindings self !! get_sender_id event = None →
  maa_unbind self event = (self, emit (Yield NotBound))
  ∧ maa_start self event tasks = (self, emit (Yield BindFirst))
  ∧ maa_screenshot self event uuid = (self, emit (Yield BindFirst))
  ∧ maa_stop self event uuid = (self, emit (Yield BindFirst))
  ∧ maa_heartbeat self event uuid = (self, emit (Yield BindFirst))
  ∧ maa_status self event now = None.
Proof.
  intros Hn.
  unfold maa_unbind, maa_start, maa_screenshot, maa_stop, maa_heartbeat,
    control_command, maa_status.
  by rewrite Hn.
Qed.

Lemma unbound_operator_changes_nothing_witness :
  bindings combat_plugin !! get_sender_id (Event "U2" "qq:private:U2") = None
  ∧ step combat_plugin (Stop (Event "U2" "qq:private:U2") "id-9")
    = combat_plugin.
Proof.
  assert (bindings combat_plugin !! get_sender_id (Event "U2" "qq:private:U2")
          = None) as Hn by by_evaluation.
  split; [exact Hn|].
  rewrite step_command. cbn [command].
  destruct (unbound_operator_changes_nothing combat_plugin
              (Event "U2" "qq:private:U2") NoNames "id-9" 0 Hn)
    as (_ & _ & _ & -> & _).
  reflexivity.
Defined.

(** X16. Operators are isolated from each other: a command changes the queue
    and the executed set of no device other than the one its sender has
    bound (and of none at all when the sender has no binding). *)
Theorem operator_isolation (self : MAAPlugin) (i : input) (op d : string) :
  sender_of i = Some op →
  (∀ b, bindings self !! op = Some b → b_device_id b ≠ d) →
  queue (step self i) d = queue self d
  ∧ executed (step self i) d = executed self d.
Proof.
  intros Hs Hother. rewrite step_command.
  destruct i as [ev dev|ev|ev ts|ev u|ev u|ev u|req now|req io];
    simplify_eq/=.
  - unfold maa_bind. destruct (bindings self !! get_sender_id ev); [done|].
    by destruct (device_to_sender self !! dev).
  - unfold maa_unbind.
    destruct (bindings self !! get_sender_id ev) as [b|] eqn:Hb; [|done].
    destruct (device_to_sender self !! b_device_id b); [|done].
    unfold queue, executed. simpl.
    rewrite !lookup_delete_ne; [done|by apply Hother..].
  - unfold maa_start.
    destruct (bindings self !! get_sender_id ev) as [b|] eqn:Hb; [|done].
    destruct ts as [| |items]; [done|done|]. cbn [fst].
    rewrite queue_add_all, decide_False by by apply Hother.
    unfold executed.
    by destruct (add_all_frame items (b_device_id b) self) as (_ & _ & -> & _).
  - unfold maa_screenshot, control_command.
    destruct (bindings self !! get_sender_id ev) as [b|] eqn:Hb; [|done].
    cbn [fst]. by rewrite queue_insert_head, decide_False by by apply Hother.
  - unfold maa_stop, control_command.
    destruct (bindings self !! get_sender_id ev) as [b|] eqn:Hb; [|done].
    cbn [fst]. by rewrite queue_insert_head, decide_False by by apply Hother.
  - unfold maa_heartbeat, control_command.
    destruct (bindings self !! get_sender_id ev) as [b|] eqn:Hb; [|done].
    cbn [fst]. by rewrite queue_insert_head, decide_False by by apply Hother.
Qed.

Lemma operator_isolation_witness :
  sender_of (Unbind (Event "U2" "qq:private:U2")) = Some "U2"
  ∧ (∀ b, bindings combat_plugin !! "U2" = Some b → b_device_id b ≠ "D1")
  ∧ queue (step combat_plugin (Unbind (Event "U2" "qq:private:U2"))) "D1"
    = queue combat_plugin "D1".
Proof.
  assert (sender_of (Unbind (Event "U2" "qq:private:U2")) = Some "U2") as Hs
    by reflexivity.
  assert (∀ b, bindings combat_plugin !! "U2" = Some b → b_device_id b ≠ "D1")
    as Ho.
  { intros b Hb. exfalso. revert Hb.
    assert (bindings combat_plugin !! "U2" = None) as -> by by_evaluation.
    done. }
  split; [exact Hs|]. split; [exact Ho|].
  exact (proj1 (operator_isolation combat_plugin _ "U2" "D1" Hs Ho)).
Defined.

(** X17. Devices are isolated from each other: a [reportStatus] request changes
    the queue and the executed set of the device it names only, changes
    neither index nor the presence table, and every message it sends goes
    to the channel address of the operator that device is bound to. *)
Theorem report_isolation (self : MAAPlugin) (data : gmap string string)
    (io : report_io) :
  let s' := fst (_handle_report_status self (Object data) io) in
  let m := snd (_handle_report_status self (Object data) io) in
  (∀ d, d ≠ get data "device" →
        queue s' d = queue self d ∧ executed s' d = executed self d)
  ∧ bindings s' = bindings self
  ∧ device_to_sender s' = device_to_sender self
  ∧ device_last_seen s' = device_last_seen self
  ∧ ∀ target chain r,
      SendMessage target chain r ∈ effects m →
      ∃ op b, device_to_sender self !! get data "device" = Some op
              ∧ bindings self !! op = Some b ∧ target = b_umo b.
Proof.
  intros s' m. subst s' m. unfold _handle_report_status.
  destruct (negb _ || negb _).
  { cbn [fst snd]. repeat (split; [done|]). intros ??? Hin.
    by apply elem_of_nil in Hin. }
  cbn [fst snd]. split.
  { intros d Hd. by rewrite queue_acknowledge, executed_acknowledge,
      !decide_False by done. }
  repeat (split; [done|]).
  intros target chain r. rewrite (proj1 (effects_then_ret _ _)).
  unfold notify.
  destruct (acknowledge_frame self (get data "device") (get data "task"))
    as (_ & -> & -> & _).
  destruct (device_to_sender self !! get data "device") as [op|] eqn:Hop;
    [|by intros Hin; apply elem_of_nil in Hin].
  destruct (truthy op); [|by intros Hin; apply elem_of_nil in Hin].
  destruct (bindings self !! op) as [b|] eqn:Hb;
    [|by intros Hin; apply elem_of_nil in Hin].
  destruct (truthy (b_umo b)); [|by intros Hin; apply elem_of_nil in Hin].
  intros Hin. exists op, b. split; [done|]. split; [done|]. revert Hin.
  generalize (completion_message (get data "status")). intros message.
  destruct (is_screenshot (get data "payload")).
  - unfold _send_screenshot, screenshot_failed.
    destruct io as [dec mk hex wr snd1 snd2].
    destruct dec as [e|bytes], mk as [e1|], wr as [e2|], snd1 as [e3|],
      snd2 as [e4|]; cbn; rewrite ?elem_of_cons, elem_of_nil;
      intros Hin; repeat destruct Hin as [Hin|Hin]; by simplify_eq.
  - destruct (io_send io); cbn; rewrite ?elem_of_cons, elem_of_nil;
      intros Hin; repeat destruct Hin as [Hin|Hin]; by simplify_eq.
Qed.

(** ** Invariants of the queues *)

Lemma add_all_queues_dom items : ∀ d self dev,
  is_Some (task_queues (add_all d self items) !! dev) →
  dev = d ∨ is_Some (task_queues self !! dev).
Proof.
  induction items as [|it items IH]; intros d self dev; [by right|].
  unfold add_all in *. cbn [foldl]. intros [Hd|Hq]%IH; [by left|].
  revert Hq. unfold _add_task, set_queue. cbn.
  rewrite lookup_insert_is_Some. intros [->|[_ Hq]]; [by left|by right].
Qed.

Lemma step_no_orphan self i :
  consistent self → no_orphan_queue self → no_orphan_queue (step self i).
Proof.
  intros [H1 _] Hno dev. rewrite step_command.
  destruct i as [ev d|ev|ev ts|ev u|ev u|ev u|req now|req io]; cbn [command].
  - unfold maa_bind. destruct (bindings self !! get_sender_id ev); [apply Hno|].
    destruct (device_to_sender self !! d); [apply Hno|]. cbn.
    intros Hq%Hno. rewrite lookup_insert_is_Some.
    destruct (decide (d = dev)); [by left|by right].
  - unfold maa_unbind.
    destruct (bindings self !! get_sender_id ev) as [b|]; [|apply Hno].
    destruct (device_to_sender self !! b_device_id b); [|apply Hno]. cbn.
    rewrite !lookup_delete_is_Some. intros [Hne Hq%Hno]. done.
  - unfold maa_start.
    destruct (bindings self !! get_sender_id ev) as [b|] eqn:Hb; [|apply Hno].
    destruct ts as [| |items]; [apply Hno..|]. cbn [fst].
    destruct (add_all_frame items (b_device_id b) self) as (_ & -> & _).
    intros [->|Hq]%add_all_queues_dom; [|by apply Hno].
    destruct (H1 _ _ Hb) as [-> _]. eauto.
  - unfold maa_screenshot, control_command.
    destruct (bindings self !! get_sender_id ev) as [b|] eqn:Hb; [|apply Hno].
    cbn. rewrite lookup_insert_is_Some. intros [<-|[_ Hq]]; [|by apply Hno].
    destruct (H1 _ _ Hb) as [-> _]. eauto.
  - unfold maa_stop, control_command.
    destruct (bindings self !! get_sender_id ev) as [b|] eqn:Hb; [|apply Hno].
    cbn. rewrite lookup_insert_is_Some. intros [<-|[_ Hq]]; [|by apply Hno].
    destruct (H1 _ _ Hb) as [-> _]. eauto.
  - unfold maa_heartbeat, control_command.
    destruct (bindings self !! get_sender_id ev) as [b|] eqn:Hb; [|apply Hno].
    cbn. rewrite lookup_insert_is_Some. intros [<-|[_ Hq]]; [|by apply Hno].
    destruct (H1 _ _ Hb) as [-> _]. eauto.
  - destruct (get_task_frame self req now) as (_ & _ & Hd & Hq & _).
    destruct (_handle_get_task self req now) as [s m]. cbn [fst] in *.
    rewrite Hd, Hq. apply Hno.
  - unfold _handle_report_status. destruct req as [|value|data]; [apply Hno|apply Hno|].
    destruct (negb _ || negb _); [apply Hno|]. cbn [fst].
    rewrite lookup_queues_acknowledge.
    destruct (acknowledge_frame self (get data "device") (get data "task"))
      as (_ & _ & -> & _).
    case_decide as Hk; [|apply Hno]. subst dev.
    rewrite fmap_is_Some. apply Hno.
Qed.

(** X18. No orphan queues: in every state reached from a consistent registry
    without queues of unbound devices (a fresh plugin is one), a device
    that has a queue is bound; unbinding discards the queue, and nothing
    creates one for an unbound device. *)
Theorem queues_only_for_bound_devices (self : MAAPlugin)
    (inputs : list input) :
  consistent self → no_orphan_queue self →
  no_orphan_queue (run self inputs).
Proof.
  revert self. induction inputs as [|i inputs IH]; intros self Hc Hno; [done|].
  cbn [run foldl]. apply IH; [by apply step_consistent|by apply step_no_orphan].
Qed.

Lemma queues_only_for_bound_devices_witness :
  consistent (init true) ∧ no_orphan_queue (init true)
  ∧ no_orphan_queue
      (run (init true)
           [Bind U1 "D1"; Stop U1 "id-1"; Unbind U1;
            ReportStatus (Object combat_report) io_ok]).
Proof.
  assert (consistent (init true)) as Hc by by_evaluation.
  assert (no_orphan_queue (init true)) as Hno.
  { intros dev [q Hq]. simpl in Hq. by rewrite lookup_empty in Hq. }
  split; [exact Hc|]. split; [exact Hno|].
  exact (queues_only_for_bound_devices (init true) _ Hc Hno).
Defined.

Lemma appended_ids_sublist self items :
  t_id <$> (items ≫= λ it, appended self (si_type it) ""
                                     (si_uuid1 it) (si_uuid2 it))
  `sublist_of` (items ≫= λ it, [si_uuid1 it; si_uuid2 it]).
Proof.
  induction items as [|it items IH]; [done|].
  cbn [mbind list_bind]. rewrite fmap_app. apply sublist_app; [|done].
  unfold appended. destruct (auto_screenshot self && negb _); cbn.
  - done.
  - apply sublist_skip, sublist_cons, sublist_nil_l.
Qed.

Lemma step_unique_ids self i :
  (∀ dev, NoDup (t_id <$> queue self dev)) →
  NoDup (uuids_of i) →
  (∀ dev t, t ∈ queue self dev → t_id t ∉ uuids_of i) →
  ∀ dev, NoDup (t_id <$> queue (step self i) dev).
Proof.
  intros Hnd Hu Hfresh dev. rewrite step_command.
  destruct i as [ev d|ev|ev ts|ev u|ev u|ev u|req now|req io]; cbn [command].
  - unfold maa_bind.
    destruct (bindings self !! get_sender_id ev); [apply Hnd|].
    destruct (device_to_sender self !! d); apply Hnd.
  - unfold maa_unbind.
    destruct (bindings self !! get_sender_id ev) as [b|]; [|apply Hnd].
    destruct (device_to_sender self !! b_device_id b); [|apply Hnd].
    unfold queue. cbn.
    destruct (decide (b_device_id b = dev)) as [<-|Hne].
    + rewrite lookup_delete_eq. constructor.
    + rewrite lookup_delete_ne by done. apply Hnd.
  - unfold maa_start.
    destruct (bindings self !! get_sender_id ev) as [b|]; [|apply Hnd].
    destruct ts as [| |items]; [apply Hnd..|]. cbn [fst].
    rewrite queue_add_all. case_decide as Hd; [|apply Hnd]. subst dev.
    rewrite fmap_app. apply NoDup_app. split; [apply Hnd|]. split.
    + intros id [t [-> Ht]]%list_elem_of_fmap Hin.
      apply (Hfresh _ _ Ht). cbn [uuids_of].
      eapply elem_of_sublist; [exact Hin|apply appended_ids_sublist].
    + eapply sublist_NoDup; [exact Hu|apply appended_ids_sublist].
  - unfold maa_screenshot, control_command.
    destruct (bindings self !! get_sender_id ev) as [b|]; [|apply Hnd].
    cbn [fst]. rewrite queue_insert_head. case_decide; [|apply Hnd].
    subst dev. cbn. apply NoDup_cons. split; [|apply Hnd].
    intros [t [-> Ht]]%list_elem_of_fmap. apply (Hfresh _ _ Ht).
    by apply list_elem_of_singleton.
  - unfold maa_stop, control_command.
    destruct (bindings self !! get_sender_id ev) as [b|]; [|apply Hnd].
    cbn [fst]. rewrite queue_insert_head. case_decide; [|apply Hnd].
    subst dev. cbn. apply NoDup_cons. split; [|apply Hnd].
    intros [t [-> Ht]]%list_elem_of_fmap. apply (Hfresh _ _ Ht).
    by apply list_elem_of_singleton.
  - unfold maa_heartbeat, control_command.
    destruct (bindings self !! get_sender_id ev) as [b|]; [|apply Hnd].
    cbn [fst]. rewrite queue_insert_head. case_decide; [|apply Hnd].
    subst dev. cbn. apply NoDup_cons. split; [|apply Hnd].
    intros [t [-> Ht]]%list_elem_of_fmap. apply (Hfresh _ _ Ht).
    by apply list_elem_of_singleton.
  - destruct (get_task_frame self req now) as (_ & _ & _ & Hq & _).
    destruct (_handle_get_task self req now) as [s m]. cbn [fst] in *.
    unfold queue. rewrite Hq. apply Hnd.
  - unfold _handle_report_status. destruct req as [|value|data]; [apply Hnd|apply Hnd|].
    destruct (negb _ || negb _); [apply Hnd|]. cbn [fst].
    rewrite queue_acknowledge. case_decide; [|apply Hnd]. subst dev.
    eapply sublist_NoDup; [apply Hnd|]. apply fmap_sublist, sublist_filter.
Qed.

(** X19. Task ids are unique within a queue: when the tokens [uuid4] returns
    during the inputs are pairwise distinct and differ from the ids that
    are already queued, no queue ever holds two tasks with the same id. *)
Theorem queue_ids_unique (self : MAAPlugin) (inputs : list input) :
  (∀ dev, NoDup (t_id <$> queue self dev)) →
  NoDup (inputs ≫= uuids_of) →
  (∀ dev t, t ∈ queue self dev → t_id t ∉ inputs ≫= uuids_of) →
  ∀ dev, NoDup (t_id <$> queue (run self inputs) dev).
Proof.
  revert self. induction inputs as [|i inputs IH]; intros self Hnd Hu Hfresh;
    [done|].
  cbn [mbind list_bind] in Hu, Hfresh. apply NoDup_app in Hu.
  destruct Hu as (Hi & Hdisj & Hrest).
  cbn [run foldl]. apply IH; [|done|].
  - apply step_unique_ids; [done|done|]. intros dev t Ht Hin.
    apply (Hfresh _ _ Ht). apply elem_of_app. by left.
  - intros dev t [Ht|Ht]%step_queue_origin Hin.
    + apply (Hfresh _ _ Ht). apply elem_of_app. by right.
    + by apply (Hdisj _ Ht).
Qed.

Lemma queue_ids_unique_witness :
  (∀ dev, NoDup (t_id <$> queue (init true) dev))
  ∧ NoDup ((Bind U1 "D1" :: inputs_after) ≫= uuids_of)
  ∧ NoDup (t_id <$> queue (run (init true) (Bind U1 "D1" :: inputs_after)) "D1").
Proof.
  assert (∀ dev, queue (init true) dev = []) as Hempty.
  { intros dev. unfold queue. simpl. by rewrite lookup_empty. }
  assert (∀ dev, NoDup (t_id <$> queue (init true) dev)) as Hnd.
  { intros dev. rewrite Hempty. constructor. }
  assert (NoDup ((Bind U1 "D1" :: inputs_after) ≫= uuids_of)) as Hu
    by by_evaluation.
  split; [exact Hnd|]. split; [exact Hu|].
  apply (queue_ids_unique (init true) _ Hnd Hu).
  intros dev t Ht. rewrite Hempty in Ht. by apply elem_of_nil in Ht.
Defined.

(** ** Acknowledged ids *)

Lemma step_keeps_binding self i dev op :
  consistent self → device_to_sender self !! dev = Some op →
  is_unbind_of op i = false → device_to_sender (step self i) !! dev = Some op.
Proof.
  intros [H1 _] Hd Hu.
  destruct i as [ev d|ev| | | | | |] eqn:Hi;
    [| |destruct (step_registry self i) as [_ Hs]; [by subst i..|];
        subst i; by rewrite Hs..].
  - rewrite step_command. cbn [command]. unfold maa_bind.
    destruct (bindings self !! get_sender_id ev); [done|].
    destruct (device_to_sender self !! d) eqn:Hdd; [done|]. cbn.
    rewrite lookup_insert_ne; [done|]. intros ->. congruence.
  - rewrite step_command. cbn [command]. unfold maa_unbind.
    destruct (bindings self !! get_sender_id ev) as [b|] eqn:Hb; [|done].
    destruct (device_to_sender self !! b_device_id b) eqn:Hdd; [|done]. cbn.
    rewrite lookup_delete_ne; [done|]. intros Heq.
    destruct (H1 _ _ Hb) as [Hd' _]. rewrite Heq, Hd in Hd'.
    injection Hd' as Hop. simpl in Hu. apply bool_decide_eq_false in Hu.
    by destruct Hu.
Qed.

Lemma step_executed_kept self i dev op tid :
  consistent self → device_to_sender self !! dev = Some op →
  is_unbind_of op i = false →
  tid ∈ executed self dev → tid ∈ executed (step self i) dev.
Proof.
  intros [H1 _] Hd Hu Hin. rewrite step_command.
  destruct i as [ev d|ev|ev ts|ev u|ev u|ev u|req now|req io]; cbn [command].
  - unfold maa_bind. destruct (bindings self !! get_sender_id ev); [done|].
    by destruct (device_to_sender self !! d).
  - unfold maa_unbind.
    destruct (bindings self !! get_sender_id ev) as [b|] eqn:Hb; [|done].
    destruct (device_to_sender self !! b_device_id b) eqn:Hdd; [|done].
    unfold executed. cbn. rewrite lookup_delete_ne; [done|]. intros Heq.
    destruct (H1 _ _ Hb) as [Hd' _]. rewrite Heq, Hd in Hd'.
    injection Hd' as Hop. simpl in Hu. apply bool_decide_eq_false in Hu.
    by destruct Hu.
  - unfold maa_start.
    destruct (bindings self !! get_sender_id ev) as [b|]; [|done].
    destruct ts as [| |items]; [done|done|]. cbn [fst]. unfold executed.
    by destruct (add_all_frame items (b_device_id b) self) as (_ & _ & -> & _).
  - unfold maa_screenshot, control_command.
    by destruct (bindings self !! get_sender_id ev).
  - unfold maa_stop, control_command.
    by destruct (bindings self !! get_sender_id ev).
  - unfold maa_heartbeat, control_command.
    by destruct (bindings self !! get_sender_id ev).
  - destruct (get_task_frame self req now) as (_ & _ & _ & _ & He & _).
    destruct (_handle_get_task self req now) as [s m]. cbn [fst] in *.
    unfold executed. by rewrite He.
  - unfold _handle_report_status. destruct req as [|value|data]; [done|done|].
    destruct (negb _ || negb _); [done|]. cbn [fst].
    rewrite executed_acknowledge. case_decide; [|done]. subst dev.
    apply elem_of_union. by left.
Qed.

(** Every answer to a poll carries pending tasks only: tasks of the
    device's queue whose id is not in its executed set. *)
Lemma poll_from_pending self dev user now :
  ∃ r, poll self dev user now = inr r
       ∧ ∀ x, x ∈ tasks_of r → x ∈ queue self dev ∧ t_id x ∉ executed self dev.
Proof.
  unfold poll, _handle_get_task.
  assert (get (get_request dev user) "device" = dev) as ->.
  { unfold get, get_request. by rewrite lookup_insert_eq. }
  destruct (negb (truthy dev)).
  { eexists. split; [reflexivity|]. intros x Hx. by apply elem_of_nil in Hx. }
  cbn [device_to_sender task_queues executed_tasks].
  destruct (negb (from_option truthy false _)).
  { eexists. split; [reflexivity|]. intros x Hx. by apply elem_of_nil in Hx. }
  eexists. split; [reflexivity|]. intros x Hx. cbn in Hx.
  apply list_elem_of_filter in Hx. destruct Hx as [Hn Hx]. by split.
Qed.

(** X20. The executed set of a bound device only grows: while its operator does
    not unbind, an acknowledged id stays acknowledged through every input,
    and no poll of the device is answered with a task of that id, not even
    when a task with the same id is enqueued again. *)
Theorem acknowledged_stays_acknowledged (self : MAAPlugin) (dev op tid : string)
    (inputs : list input) (user : string) (now : Z) :
  consistent self →
  device_to_sender self !! dev = Some op →
  tid ∈ executed self dev →
  Forall (λ i, is_unbind_of op i = false) inputs →
  tid ∈ executed (run self inputs) dev
  ∧ ∃ r, poll (run self inputs) dev user now = inr r
         ∧ ∀ x, x ∈ tasks_of r → t_id x ≠ tid.
Proof.
  intros Hc Hd Hin Hall.
  assert (tid ∈ executed (run self inputs) dev) as Hkept.
  { revert self Hc Hd Hin. induction Hall as [|i inputs Hu _ IH];
      intros self Hc Hd Hin; [done|].
    cbn [run foldl]. apply IH.
    - by apply step_consistent.
    - by apply step_keeps_binding.
    - by apply (step_executed_kept self i dev op). }
  split; [done|].
  destruct (poll_from_pending (run self inputs) dev user now) as (r & Hr & Hp).
  exists r. split; [done|]. intros x Hx Heq.
  destruct (Hp x Hx) as [_ Hn]. apply Hn. by rewrite Heq.
Qed.

Lemma acknowledged_stays_acknowledged_witness :
  consistent (step combat_plugin (ReportStatus (Object combat_report) io_ok))
  ∧ "id-1" ∈ executed
      (run (step combat_plugin (ReportStatus (Object combat_report) io_ok))
           [Stop U1 "id-1"; Unbind (Event "U2" "")]) "D1".
Proof.
  assert (consistent (step combat_plugin
                        (ReportStatus (Object combat_report) io_ok))) as Hc
    by by_evaluation.
  split; [exact Hc|].
  refine (proj1 (acknowledged_stays_acknowledged _ "D1" "U1" "id-1"
                   [Stop U1 "id-1"; Unbind (Event "U2" "")] "" 0 Hc _ _ _));
    by_evaluation.
Defined.

Lemma unseen_executed self uuid dev : unseen self uuid → uuid ∉ executed self dev.
Proof.
  intros Hu. unfold executed.
  destruct (executed_tasks self !! dev) as [ids|] eqn:He;
    [exact (Hu _ _ He)|apply not_elem_of_empty].
Qed.

Lemma step_none_executed self i :
  none_executed self → Forall (unseen self) (uuids_of i) →
  none_executed (step self i).
Proof.
  intros Hinv Hfresh dev t. rewrite Forall_forall in Hfresh.
  rewrite step_command.
  destruct i as [ev d|ev|ev ts|ev u|ev u|ev u|req now|req io]; cbn [command].
  - unfold maa_bind. destruct (bindings self !! get_sender_id ev); [apply Hinv|].
    destruct (device_to_sender self !! d); apply Hinv.
  - unfold maa_unbind.
    destruct (bindings self !! get_sender_id ev) as [b|]; [|apply Hinv].
    destruct (device_to_sender self !! b_device_id b); [|apply Hinv].
    unfold queue, executed. cbn.
    destruct (decide (b_device_id b = dev)) as [<-|Hne].
    + rewrite !lookup_delete_eq. intros Hx. by apply elem_of_nil in Hx.
    + rewrite !lookup_delete_ne by done. apply Hinv.
  - unfold maa_start.
    destruct (bindings self !! get_sender_id ev) as [b|]; [|apply Hinv].
    destruct ts as [| |items]; [apply Hinv..|]. cbn [fst].
    rewrite queue_add_all. unfold executed at 1.
    destruct (add_all_frame items (b_device_id b) self) as (_ & _ & -> & _).
    fold (executed self dev).
    case_decide as Hd; [|apply Hinv]. subst dev.
    intros [Hx|Hx]%elem_of_app; [by apply Hinv|].
    apply unseen_executed, Hfresh. cbn [uuids_of].
    eapply elem_of_sublist; [|apply (appended_ids_sublist self)].
    apply list_elem_of_fmap. by exists t.
  - unfold maa_screenshot, control_command.
    destruct (bindings self !! get_sender_id ev) as [b|]; [|apply Hinv].
    cbn [fst]. rewrite queue_insert_head.
    case_decide as Hd; [|apply Hinv]. subst dev.
    intros [->|Hx]%elem_of_cons; [|by apply Hinv].
    apply (unseen_executed self), Hfresh. by apply list_elem_of_singleton.
  - unfold maa_stop, control_command.
    destruct (bindings self !! get_sender_id ev) as [b|]; [|apply Hinv].
    cbn [fst]. rewrite queue_insert_head.
    case_decide as Hd; [|apply Hinv]. subst dev.
    intros [->|Hx]%elem_of_cons; [|by apply Hinv].
    apply (unseen_executed self), Hfresh. by apply list_elem_of_singleton.
  - unfold maa_heartbeat, control_command.
    destruct (bindings self !! get_sender_id ev) as [b|]; [|apply Hinv].
    cbn [fst]. rewrite queue_insert_head.
    case_decide as Hd; [|apply Hinv]. subst dev.
    intros [->|Hx]%elem_of_cons; [|by apply Hinv].
    apply (unseen_executed self), Hfresh. by apply list_elem_of_singleton.
  - destruct (get_task_frame self req now) as (_ & _ & _ & Hq & He & _).
    destruct (_handle_get_task self req now) as [s m]. cbn [fst] in *.
    unfold queue, executed. rewrite Hq, He. apply Hinv.
  - unfold _handle_report_status. destruct req as [|value|data]; [apply Hinv|apply Hinv|].
    destruct (negb _ || negb _); [apply Hinv|]. cbn [fst].
    rewrite queue_acknowledge, executed_acknowledge.
    case_decide as Hd; [|apply Hinv]. subst dev.
    intros [Hne Hx]%list_elem_of_filter.
    intros [Hin|Hin%elem_of_singleton]%elem_of_union; [|done].
    by apply (Hinv _ _ Hx).
Qed.

Lemma filter_all {A} (P : A → Prop) `{∀ x, Decision (P x)} (l : list A) :
  Forall P l → filter P l = l.
Proof.
  induction 1 as [|x l Hx _ IH]; [done|].
  by rewrite filter_cons_True, IH.
Qed.

(** X21. With fresh tokens the filter of [getTask] has nothing to remove: when
    no queued task is acknowledged at the start and every token is unseen
    when [uuid4] returns it, no queued task is ever in the executed set of
    its device. A poll of a bound device is then answered with its whole
    queue, in order, and the number of pending tasks that [maa_status]
    shows is the number of tasks that poll delivers. *)
Theorem pending_is_the_whole_queue (self : MAAPlugin) (inputs : list input)
    (event : AstrMessageEvent) (b : binding) (user : string) (now later : Z) :
  consistent self → none_executed self → fresh_run self inputs →
  let s' := run self inputs in
  bindings s' !! get_sender_id event = Some b →
  b_device_id b ≠ "" → get_sender_id event ≠ "" →
  none_executed s'
  ∧ poll s' (b_device_id b) user now
    = inr (Response 200 (Tasks (queue s' (b_device_id b))))
  ∧ sr_pending <$> maa_status s' event later
    = Some (length (queue s' (b_device_id b))).
Proof.
  intros Hc Hinv Hfresh s' Hb Hdev Hop.
  assert (none_executed s') as Hinv'.
  { subst s'. clear Hb. revert self Hc Hinv Hfresh.
    induction inputs as [|i inputs IH]; intros self Hc Hinv Hfresh; [done|].
    destruct Hfresh as [Hi Hrest]. cbn [run foldl].
    apply IH; [by apply step_consistent|by apply step_none_executed|done]. }
  assert (consistent s') as [H1 _] by by apply run_consistent.
  destruct (H1 _ _ Hb) as [Hd _].
  split; [done|]. split.
  - rewrite (poll_bound s' _ (get_sender_id event)) by done.
    do 3 f_equal. unfold pending. apply filter_all.
    apply Forall_forall. intros t Ht. by apply Hinv'.
  - unfold maa_status. by rewrite Hb.
Qed.

Lemma pending_is_the_whole_queue_witness :
  consistent (init true) ∧ none_executed (init true)
  ∧ fresh_run (init true) (Bind U1 "D1" :: inputs_after)
  ∧ poll (run (init true) (Bind U1 "D1" :: inputs_after)) "D1" "" 7
    = inr (Response 200 (Tasks [Task "id-4" "LinkStart-Combat" None;
                                Task "id-5" "CaptureImage" None])).
Proof.
  assert (consistent (init true)) as Hc by by_evaluation.
  assert (none_executed (init true)) as Hn.
  { intros dev t Ht. unfold queue in Ht. simpl in Ht.
    rewrite lookup_empty in Ht. by apply elem_of_nil in Ht. }
  assert (fresh_run (init true) (Bind U1 "D1" :: inputs_after)) as Hf
    by by_evaluation.
  split; [exact Hc|]. split; [exact Hn|]. split; [exact Hf|].
  destruct (pending_is_the_whole_queue (init true) (Bind U1 "D1" :: inputs_after)
              U1 (Binding "D1" "U1" "qq:private:U1") "" 7 0 Hc Hn Hf)
    as (_ & Hp & _); [by_evaluation..|].
  etransitivity; [exact Hp|]. by vm_compute.
Defined.

(** ** Device status *)

(** X22. [maa_status] after a poll, on clock readings in whole seconds: once the
    bound device has polled at time [t > 0], the status at time [now]
    shows the first 16 characters of the device id, the length of the
    queue, and the presence computed from [now - t]: online below 10
    seconds, active n seconds ago from 10 to 59, offline with the whole
    minutes from 60 on. A device without a presence entry is shown as never
    connected. *)
Theorem status_after_poll (self : MAAPlugin) (event : AstrMessageEvent)
    (b : binding) (data : gmap string string) (t now : Z) :
  bindings self !! get_sender_id event = Some b →
  get data "device" = b_device_id b → b_device_id b ≠ "" →
  (0 < t)%Z →
  let dev := b_device_id b in
  let s' := fst (_handle_get_task self (Object data) t) in
  maa_status s' event now
  = Some (StatusReport (String.substring 0 16 dev) (presence_at t now)
                       (length (queue self dev)))
  ∧ ((now - t < 10)%Z → presence_at t now = Online)
  ∧ ((10 ≤ now - t < 60)%Z → presence_at t now = RecentlyActive (now - t))
  ∧ ((60 ≤ now - t)%Z →
     presence_at t now = Offline ((now - t) `div` 60)
     ∧ (1 ≤ (now - t) `div` 60)%Z)
  ∧ (device_last_seen self !! dev = None →
     sr_presence <$> maa_status self event now = Some NeverConnected).
Proof.
  intros Hb Hdata Hdev Ht dev s'. subst dev s'.
  split; [|split; [|split; [|split]]].
  - destruct (get_task_frame self (Object data) t)
      as (_ & Hbs & _ & Hq & _ & Hl).
    unfold maa_status. rewrite Hbs, Hb, Hq, Hl, Hdata.
    unfold truthy. rewrite bool_decide_eq_true_2 by done.
    by rewrite lookup_insert_eq.
  - intros Hlt. unfold presence_at.
    by rewrite !bool_decide_eq_true_2 by lia.
  - intros [Hge Hlt]. unfold presence_at.
    rewrite bool_decide_eq_true_2 by lia.
    rewrite bool_decide_eq_false_2 by lia.
    by rewrite bool_decide_eq_true_2 by lia.
  - intros Hge. unfold presence_at.
    rewrite bool_decide_eq_true_2 by lia.
    rewrite !bool_decide_eq_false_2 by lia.
    split; [done|]. apply Z.div_le_lower_bound; lia.
  - intros Hnone. unfold maa_status. by rewrite Hb, Hnone.
Qed.

Lemma status_after_poll_witness :
  bindings combat_plugin !! get_sender_id U1
  = Some (Binding "D1" "U1" "qq:private:U1")
  ∧ maa_status (step combat_plugin (GetTask (Object (get_request "D1" "")) 1000))
               U1 1075
    = Some (StatusReport "D1" (Offline 1) 2).
Proof.
  assert (bindings combat_plugin !! get_sender_id U1
          = Some (Binding "D1" "U1" "qq:private:U1")) as Hb by by_evaluation.
  split; [exact Hb|].
  rewrite step_command. cbn [command].
  transitivity (maa_status (fst (_handle_get_task combat_plugin
                                   (Object (get_request "D1" "")) 1000)) U1 1075).
  { by destruct (_handle_get_task combat_plugin _ 1000). }
  destruct (status_after_poll combat_plugin U1 _ (get_request "D1" "") 1000 1075
              Hb) as (Hs & _); [by_evaluation..|].
  etransitivity; [exact Hs|]. by vm_compute.
Defined.

(** ** From binding to notification *)

(** X23. Results reach the operator who bound the device: right after a
    successful bind (operator and device both free, ids and channel address
    non-empty), a well-formed report of that device with a payload of at
    most 100 characters sends exactly one message, the completion text with
    the reported status, to the [unified_msg_origin] of the bind command,
    and is answered 200 when that send completes. *)
Theorem report_reaches_binding_operator (self : MAAPlugin)
    (event : AstrMessageEvent) (data : gmap string string) (io : report_io) :
  bindings self !! get_sender_id event = None →
  device_to_sender self !! get data "device" = None →
  get data "device" ≠ "" → get data "task" ≠ "" →
  get_sender_id event ≠ "" → unified_msg_origin event ≠ "" →
  (String.length (get data "payload") ≤ 100)%nat →
  snd (_handle_report_status (step self (Bind event (get data "device")))
         (Object data) io)
  = ([SendMessage (unified_msg_origin event)
        (Chain (completion_message (get data "status")) None) (io_send io)],
     match io_send io with
     | None => inr (Response 200 NoBody)
     | Some e => inl e
     end).
Proof.
  intros Hfree Hdfree Hdev Htask Hop Humo Hlen.
  rewrite step_command. cbn [command]. unfold maa_bind.
  rewrite Hfree, Hdfree. cbn [fst].
  rewrite (report_bound _ data io (get_sender_id event)
             (Binding (get data "device") (get_sender_id event)
                      (unified_msg_origin event)));
    [|done|done|cbn; by rewrite lookup_insert_eq|done
     |cbn; by rewrite lookup_insert_eq|done].
  cbn [snd b_umo]. rewrite bool_decide_eq_false_2 by lia.
  by destruct (io_send io).
Qed.

Lemma report_reaches_binding_operator_witness :
  bindings (init true) !! get_sender_id U1 = None
  ∧ device_to_sender (init true) !! get combat_report "device" = None
  ∧ snd (_handle_report_status (step (init true) (Bind U1 "D1"))
           (Object combat_report) io_ok)
    = ([SendMessage "qq:private:U1" (Chain (completion_message "done") None)
          None],
       inr (Response 200 NoBody)).
Proof.
  assert (bindings (init true) !! get_sender_id U1 = None) as H1
    by by_evaluation.
  assert (device_to_sender (init true) !! get combat_report "device" = None)
    as H2 by by_evaluation.
  split; [exact H1|]. split; [exact H2|].
  refine (report_reaches_binding_operator (init true) U1 combat_report io_ok
            H1 H2 _ _ _ _ _); by_evaluation.
Defined.
